(** * Trezor hardware wallet (src/trezor/class.js): a shallow embedding

    The wallet class talks to three kinds of collaborators that are not part
    of the class itself: the key-derivation library (hdkey, ethers SigningKey),
    the device transport (payloadListener) and the path helpers
    (serializer, normalizer, validator, bip32-path).  They are interfaces
    here, in the form of type classes; the class body is translated statement
    by statement on top of them.

    JavaScript objects used as dictionaries (transaction objects, payloads,
    providers, device responses) are finite maps from property names to
    values; Object.assign is a right-biased merge.  Exceptions and rejected
    promises are the [Throw] outcome of a small state-and-error monad whose
    state is whatever the code mutates: the console and the device for the
    static methods, the wallet object for setDefaultAddress. *)

From Stdlib Require Import ZArith Ascii String List Lia.
From Stdlib Require Import DecimalString HexadecimalString DecimalNat HexadecimalZ.
From stdpp Require Import gmap strings list fin_maps.

Open Scope Z_scope.
Open Scope string_scope.

(** ** JavaScript values, objects and errors *)

(** Numbers are the integer-valued ones.  Fractions, NaN and the infinities
    are left out: wherever the class computes with a number it has first
    put it through the safe-integer validator, which refuses them.  Arrays
    are the arrays of numbers that derivation paths are sent as. *)
Inductive value : Type :=
  | VUndefined
  | VNull
  | VBool (b : bool)
  | VNum (n : Z)
  | VStr (s : string)
  | VArr (l : list Z).

#[global] Instance value_eq_dec : EqDecision value.
Proof. solve_decision. Defined.

Abbreviation obj := (gmap string value).

(** [o.k]: reading a property that is not there gives undefined. *)
Definition get (k : string) (o : obj) : value := default VUndefined (o !! k).

(** [!!v] *)
Definition truthy (v : value) : bool :=
  match v with
  | VUndefined | VNull => false
  | VBool b => b
  | VNum n => negb (Z.eqb n 0)
  | VStr s => negb (String.eqb s "")
  | VArr _ => true
  end.

(** [a || b] on values. *)
Definition js_or (a b : value) : value := if truthy a then a else b.

(** [Object.assign(target, ...sources)]: own properties of later sources
    overwrite earlier ones (stdpp's union is left-biased). *)
Definition Object_assign (target : obj) (sources : list obj) : obj :=
  foldl (fun acc src => src ∪ acc) target sources.

(** A destructuring or parameter default, [x = d]: it applies exactly when
    the incoming value is undefined. *)
Definition with_default (d v : value) : value :=
  match v with VUndefined => d | _ => v end.

Inductive error_kind : Type :=
  | InputValidationError
  | TypeError
  | RangeError
  | TransportError.

Record js_error : Type := JsError { err_kind : error_kind; message : string }.

Inductive outcome (A : Type) : Type :=
  | Return (a : A)
  | Throw (e : js_error).
Arguments Return {A} a.
Arguments Throw {A} e.

(** ** The effect monad: state passing with exceptions

    A thrown exception keeps the state reached so far, as in JavaScript. *)
Definition M (S A : Type) : Type := S -> outcome A * S.

Definition ret {S A} (a : A) : M S A := fun s => (Return a, s).
Definition throw {S A} (e : js_error) : M S A := fun s => (Throw e, s).
Definition bind {S A B} (m : M S A) (k : A -> M S B) : M S B :=
  fun s => match m s with
           | (Return a, s') => k a s'
           | (Throw e, s') => (Throw e, s')
           end.
Definition lift {S A} (o : outcome A) : M S A := fun s => (o, s).
Definition gets {S A} (f : S -> A) : M S A := fun s => (Return (f s), s).
Definition modify {S} (f : S -> S) : M S unit := fun s => (Return tt, f s).

(** [try { m } catch (e) { h e }] *)
Definition try_catch {S A} (m : M S A) (h : js_error -> M S A) : M S A :=
  fun s => match m s with
           | (Return a, s') => (Return a, s')
           | (Throw e, s') => h e s'
           end.

Declare Scope js_scope.
Delimit Scope js_scope with js.
Notation "'let*' x ':=' m 'in' k" := (bind m (fun x => k))
  (at level 10, x name, m at level 100, k at level 200,
   format "'[v' 'let*'  x  ':='  m  'in' '/' k ']'") : js_scope.
Notation "m ';;' k" := (bind m (fun _ => k))
  (at level 100, k at level 200, right associativity) : js_scope.
Open Scope js_scope.

(** The pure fragment: code that can throw but touches no state. *)
Definition obind {A B} (o : outcome A) (k : A -> outcome B) : outcome B :=
  match o with Return a => k a | Throw e => Throw e end.

(** [Array.from(new Array(n), (value, index) => f(index))]: the callback
    runs for index 0, 1, ... in order and the first exception aborts. *)
Fixpoint Array_from_go {A} (f : nat -> outcome A) (start n : nat) : outcome (list A) :=
  match n with
  | O => Return []
  | S n' => obind (f start) (fun x =>
            obind (Array_from_go f (S start) n') (fun xs => Return (x :: xs)))
  end.

Definition MAX_ARRAY_LENGTH : Z := 2 ^ 32 - 1.

Definition Array_from {A} (len : Z) (f : nat -> outcome A) : outcome (list A) :=
  if Z.leb 0 len && Z.leb len MAX_ARRAY_LENGTH
  then Array_from_go f 0 (Z.to_nat len)
  else Throw (JsError RangeError "Invalid array length").

(** [String(n)] and [n.toString(16)] for integer-valued numbers: decimal
    digits, and lower-case hexadecimal digits after a minus sign if the
    number is negative. *)
Definition String_of_nat (n : nat) : string :=
  DecimalString.NilZero.string_of_uint (Nat.to_uint n).

Definition toString16 (n : Z) : string :=
  HexadecimalString.NilZero.string_of_int (Z.to_hex_int n).

(** [Math.ceil(n / 2)] *)
Definition Math_ceil_half (n : nat) : nat := Nat.div2 (S n).

(** The integer a hexadecimal numeral stands for, leading zeros allowed: the
    inverse reading of [toString16]. *)
Definition parseHex (s : string) : option Z :=
  option_map Z.of_hex_int (HexadecimalString.NilZero.int_of_string s).

(** ** Collaborators of the class *)

(** hdkey and ethers: the elliptic-curve side.  [HDKey_new pk cc] stands for
    [new HDKey()] followed by the two Buffer.from assignments of the
    constructor; [HDKey_derive k p] for [k.derive(p).publicKey.toString('hex')];
    [publicKeyToAddress] is SigningKey's and [validateAddress] is ethers'
    getAddress, which throws on a malformed address. *)
Class KeyDerivation : Type := {
  HDKey : Type;
  HDKey_new : value -> value -> outcome HDKey;
  HDKey_derive : HDKey -> string -> outcome string;
  publicKeyToAddress : string -> outcome string;
  validateAddress : value -> outcome string;
}.

(** The path helpers of ./helpers, ./normalizers, ./validators and of the
    bip32-path package.  [toPathArray s] is [fromString(s, true).toPathArray()]. *)
Class PathCodec : Type := {
  derivationPathSerializer : Z -> option Z -> string;
  derivationPathNormalizer : value -> string;
  derivationPath_accepts : value -> bool;
  toPathArray : string -> outcome (list Z);
}.

(** The constants the class imports from ./defaults, ../defaults, ./payloads,
    ./messages and ../walletTypes. *)
Class Defaults : Type := {
  COIN_MAINNET : Z;
  COIN_TESTNET : Z;
  MAIN_NETWORK : string;
  CANCEL_ACC_EXPORT : string;
  CANCEL_TX_SIGN : string;
  PAYLOAD_XPUB : obj;
  PAYLOAD_SIGNTX : obj;
  PAYLOAD_SIGNMSG : obj;
  PAYLOAD_VERIFYMSG : obj;
  TYPE_HARDWARE : string;
  SUBTYPE_TREZOR : string;
  userExportCancel : string;
  userSignTxCancel : string;
  notSafeInteger : string;
  derivationPathNotValid : string;
}.

(** The state the static methods act on: what [warning] has printed and the
    requests the device has been sent, oldest first. *)
Record World : Type := mkWorld {
  warnings : list string;
  requests : list obj;
}.

(** The device: what it answers to a request may depend on what it was asked
    before (the user confirms one prompt and declines the next). *)
Class DeviceTransport : Type := {
  device : list obj -> obj -> outcome obj;
}.

(** [autoselect] of ../providers, a provider generator: awaiting it gives a
    provider object (or nothing), or rejects. *)
Class Providers : Type := {
  autoselect : outcome (option obj);
}.

(** [warning(msg)] of ../utils: print and go on. *)
Definition warning (msg : string) : M World unit :=
  modify (fun w => mkWorld (warnings w ++ [msg]) (requests w)).

(** [payloadListener({ payload })]: one round trip to the device. *)
Definition payloadListener `{DeviceTransport} (payload : obj) : M World obj :=
  fun w => (device (requests w) payload,
            mkWorld (warnings w) (requests w ++ [payload])).

(** ** Validators and small utilities *)

Definition MAX_SAFE_INTEGER : Z := 2 ^ 53 - 1.

(** Modelled from the spec: ./validators is not among the sources.  The
    safe-integer validator "fails unless n is an integer, non-negative, and
    within the platform-safe integer range".  The JavaScript function returns
    true on success; the embedding hands back the accepted integer so that
    the code after the call can compute with it. *)
Definition safeIntegerValidator `{Defaults} (v : value) : outcome Z :=
  match v with
  | VNum n => if Z.leb 0 n && Z.leb n MAX_SAFE_INTEGER then Return n
              else Throw (JsError InputValidationError notSafeInteger)
  | _ => Throw (JsError InputValidationError notSafeInteger)
  end.

(** Modelled from the spec: the derivation-path validator "fails with
    InputValidationError unless path matches the accepted grammar"; the
    grammar itself is the interface's [derivationPath_accepts]. *)
Definition derivationPathValidator `{Defaults} `{PathCodec} (path : value) : outcome unit :=
  if derivationPath_accepts path then Return tt
  else Throw (JsError InputValidationError derivationPathNotValid).

Fixpoint String_repeat (c : string) (n : nat) : string :=
  match n with O => "" | S n' => c +:+ String_repeat c n' end.

(** Modelled from the spec: ../utils is not among the sources.  [padLeft]
    left-pads [value] with zeros up to [length] characters and leaves a
    longer value alone. *)
Definition padLeft (length : nat) (value : string) : string :=
  String_repeat "0" (length - String.length value) +:+ value.

(** Modelled from the spec: ../defaults is not among the sources.  The three
    default fields are defined with SETTER_PROP_DESCRIPTORS and the spec has
    setDefaultAddress reassign them, so that descriptor is a writable one. *)
Record descriptor : Type := { enumerable : bool; writable : bool }.
Definition SETTER_PROP_DESCRIPTORS : descriptor :=
  {| enumerable := true; writable := true |}.

(** ** The address objects built by the constructor *)
Module AddressObject.
Record t : Type := mk {
  path : string;
  publicKey : string;
  address : string;
}.
End AddressObject.

(** [arr[i]] for a number that is known to be an integer. *)
Definition index {A} (arr : list A) (i : Z) : option A :=
  if Z.leb 0 i then arr !! Z.to_nat i else None.

(** [arr[i].field]: reading a property of undefined is a TypeError. *)
Definition member {A B} (arr : list A) (i : Z) (field : A -> B) : outcome B :=
  match index arr i with
  | Some x => Return (field x)
  | None => Throw (JsError TypeError "Cannot read property of undefined")
  end.

(** ** class TrezorWallet *)
Module TrezorWallet.

(** The instance.  [allAddresses] is the constructor's local constant
    [otherAddresses] (the array of address objects), which the instance
    methods keep reaching through their closure; the source's own comment
    calls it [allAddresses].  [otherAddresses] is the instance property of
    that name, defined only for some wallets. *)
Record t : Type := mk {
  address : string;
  publicKey : string;
  path : string;
  type : string;
  subtype : string;
  provider : option obj;
  otherAddresses : option (list string);
  allAddresses : list AddressObject.t;
}.

Definition set_address (v : string) (w : t) : t :=
  mk v (publicKey w) (path w) (type w) (subtype w) (provider w)
     (otherAddresses w) (allAddresses w).
Definition set_publicKey (v : string) (w : t) : t :=
  mk (address w) v (path w) (type w) (subtype w) (provider w)
     (otherAddresses w) (allAddresses w).
Definition set_path (v : string) (w : t) : t :=
  mk (address w) (publicKey w) v (type w) (subtype w) (provider w)
     (otherAddresses w) (allAddresses w).

(** [this.field = v] on a property defined with descriptor [d]; the module
    is strict code, where writing a read-only property throws. *)
Definition assign (d : descriptor) (set : t -> t) : M t unit :=
  if writable d then modify set
  else throw (JsError TypeError "Cannot assign to read only property").

(** The argument [provider] of [open], by what [typeof] says about it:
    left out (or undefined), a function, an object (null included, which is
    [ProviderObject None]), or any other primitive. *)
Inductive provider_arg : Type :=
  | ProviderDefault
  | ProviderGenerator (generator : outcome (option obj))
  | ProviderObject (p : option obj)
  | ProviderPrimitive.

Section Class.
Context `{KD : KeyDerivation} `{PC : PathCodec} `{DF : Defaults}
        `{DT : DeviceTransport} `{PR : Providers}.

(** The callback of Array.from in the constructor, for one index. *)
Definition deriveAddress (hdKey : HDKey) (coinType : Z) (index : nat)
  : outcome AddressObject.t :=
  obind (HDKey_derive hdKey ("m/" +:+ String_of_nat index)) (fun derivedPublicKey =>
  let path := derivationPathSerializer coinType (Some (Z.of_nat index)) in
  obind (publicKeyToAddress derivedPublicKey) (fun address =>
  Return (AddressObject.mk path derivedPublicKey address))).

(** [new TrezorWallet(publicKey, chainCode, coinType, addressCount, provider)] *)
Definition constructor (publicKey chainCode : value) (coinType : Z)
    (addressCount : value) (provider : option obj) : outcome t :=
  let addressCount := with_default (VNum 10) addressCount in
  obind (safeIntegerValidator addressCount) (fun count =>
  obind (HDKey_new publicKey chainCode) (fun hdKey =>
  (* addressCount || 1 *)
  obind (Array_from (if Z.eqb count 0 then 1 else count)
                    (deriveAddress hdKey coinType)) (fun otherAddresses =>
  obind (member otherAddresses 0 AddressObject.address) (fun address0 =>
  obind (member otherAddresses 0 AddressObject.publicKey) (fun publicKey0 =>
  obind (member otherAddresses 0 AddressObject.path) (fun path0 =>
  Return (mk address0 publicKey0 path0 TYPE_HARDWARE SUBTYPE_TREZOR provider
             (if Z.ltb 1 count
              then Some (map AddressObject.address otherAddresses)
              else None)
             otherAddresses))))))).

(** [wallet.setDefaultAddress(addressIndex = 0)], acting on the wallet. *)
Definition setDefaultAddress (addressIndex : value) : M t bool :=
  let addressIndex := with_default (VNum 0) addressIndex in
  let* i := lift (safeIntegerValidator addressIndex) in
  let* otherAddresses := gets allAddresses in
  if Z.leb 0 i && Z.leb i (Z.of_nat (length otherAddresses)) then
    (let* a := lift (member otherAddresses i AddressObject.address) in
     assign SETTER_PROP_DESCRIPTORS (set_address a)) ;;
    (let* k := lift (member otherAddresses i AddressObject.publicKey) in
     assign SETTER_PROP_DESCRIPTORS (set_publicKey k)) ;;
    (let* p := lift (member otherAddresses i AddressObject.path) in
     assign SETTER_PROP_DESCRIPTORS (set_path p)) ;;
    ret true
  else ret false.

(** The payload [signTransaction] builds once its validators have passed. *)
Definition signTransaction_payload (args : obj) (hexNonce : string)
    (address_n : list Z) : obj :=
  Object_assign ∅ [PAYLOAD_SIGNTX;
    {[ "address_n" := VArr address_n;
       "gas_price" := get "gasPrice" args;
       "gas_limit" := get "gasLimit" args;
       "chain_id" := get "chainId" args;
       "nonce" := VStr (padLeft (Math_ceil_half (String.length hexNonce) * 2)
                                hexNonce);
       "to" := get "to" args;
       "value" := get "value" args;
       "data" := get "data" args ]}].

(** [static async signTransaction({ path, gasPrice, gasLimit, chainId,
    nonce = 0, to, value, data })]; [None] is [undefined]. *)
Definition signTransaction (args : obj) : M World (option obj) :=
  let path := get "path" args in
  let chainId := get "chainId" args in
  let nonce := with_default (VNum 0) (get "nonce" args) in
  lift (derivationPathValidator path) ;;
  let* n := lift (safeIntegerValidator nonce) in
  let hexNonce := toString16 n in
  lift (safeIntegerValidator chainId) ;;
  let* address_n := lift (toPathArray (derivationPathNormalizer path)) in
  let modifiedPayloadObject := signTransaction_payload args hexNonce address_n in
  try_catch
    (let* signedTransaction := payloadListener modifiedPayloadObject in
     ret (Some signedTransaction))
    (fun caughtError =>
       (if String.eqb (message caughtError) CANCEL_TX_SIGN
        then warning userSignTxCancel else ret tt) ;;
       ret None).

Definition signMessage_payload (pathArray : list Z) (message : value) : obj :=
  Object_assign ∅ [PAYLOAD_SIGNMSG;
    {[ "path" := VArr pathArray; "message" := message ]}].

(** [static async signMessage({ path, message })] *)
Definition signMessage (args : obj) : M World value :=
  let path := get "path" args in
  let message := get "message" args in
  lift (derivationPathValidator path) ;;
  let* pathArray := lift (toPathArray (derivationPathNormalizer path)) in
  let* response := payloadListener (signMessage_payload pathArray message) in
  ret (get "signature" response).

(** [s.substring(0, 2) === '0x' ? s.slice(2) : s] *)
Definition stripPrefix (validatedAddress : string) : string :=
  if String.eqb (substring 0 2 validatedAddress) "0x"
  then substring 2 (String.length validatedAddress - 2) validatedAddress
  else validatedAddress.

Definition verifyMessage_payload (args : obj) (validatedAddress : string) : obj :=
  Object_assign ∅ [PAYLOAD_VERIFYMSG;
    {[ "address" := VStr (stripPrefix validatedAddress);
       "message" := get "message" args;
       "signature" := get "signature" args ]}].

(** [static async verifyMessage({ address, message, signature })] *)
Definition verifyMessage (args : obj) : M World value :=
  let* validatedAddress := lift (validateAddress (get "address" args)) in
  let* response := payloadListener (verifyMessage_payload args validatedAddress) in
  ret (get "success" response).

(** [(this.provider && this.provider.chainId) || 1] *)
Definition default_chainId (this : t) : value :=
  js_or (match provider this with
         | Some p => get "chainId" p
         | None => VUndefined
         end)
        (VNum 1).

(** What [wallet.sign] hands to [signTransaction]. *)
Definition sign_arguments (this : t) (transactionObject : obj) : obj :=
  let chainId := with_default (default_chainId this)
                              (get "chainId" transactionObject) in
  Object_assign ∅ [transactionObject;
    {[ "path" := VStr (path this); "chainId" := chainId ]}].

(** [wallet.sign(transactionObject = {})] *)
Definition sign (this : t) (transactionObject : obj) : M World (option obj) :=
  signTransaction (sign_arguments this transactionObject).

(** [wallet.signMessage({ message } = {})] *)
Definition wallet_signMessage (this : t) (args : obj) : M World value :=
  signMessage {[ "path" := VStr (path this); "message" := get "message" args ]}.

(** [wallet.verifyMessage({ address = this.address, message, signature } = {})] *)
Definition wallet_verifyMessage (this : t) (args : obj) : M World value :=
  verifyMessage
    {[ "address" := with_default (VStr (address this)) (get "address" args);
       "message" := get "message" args;
       "signature" := get "signature" args ]}.

(** The coin type [open] settles on: the testnet one when there is a
    provider that is flagged testnet or is not named as the main network. *)
Definition coinType_of (providerMode : option obj) : Z :=
  match providerMode with
  | Some p =>
      if truthy (get "testnet" p)
         || negb (bool_decide (get "name" p = VStr MAIN_NETWORK))
      then COIN_TESTNET else COIN_MAINNET
  | None => COIN_MAINNET
  end.

Definition open_payload (pathArray : list Z) : obj :=
  Object_assign ∅ [PAYLOAD_XPUB; {[ "path" := VArr pathArray ]}].

(** [static async open({ addressCount, provider = autoselect } = {})] *)
Definition open (addressCount : value) (provider : provider_arg)
  : M World (option t) :=
  let provider := match provider with
                  | ProviderDefault => ProviderGenerator autoselect
                  | _ => provider
                  end in
  let* providerMode :=
    match provider with
    | ProviderGenerator generator => lift generator
    | ProviderObject p => ret p
    | _ => ret None
    end in
  let* providerMode :=
    match provider with
    | ProviderObject _ | ProviderGenerator _ => ret providerMode
    | _ => warning "No provider set" ;; ret None
    end in
  let coinType := coinType_of providerMode in
  let* pathArray :=
    lift (toPathArray (derivationPathSerializer coinType None)) in
  let modifiedPayloadObject := open_payload pathArray in
  try_catch
    (let* response := payloadListener modifiedPayloadObject in
     let* walletInstance :=
       lift (constructor (get "publicKey" response) (get "chainCode" response)
                         coinType addressCount providerMode) in
     ret (Some walletInstance))
    (fun caughtError =>
       (if String.eqb (message caughtError) CANCEL_ACC_EXPORT
        then warning userExportCancel else ret tt) ;;
       ret None).

(** The first lines of [open] in one piece: the provider that comes out of
    them (awaiting the generator can reject), and what they print. *)
Definition awaited_provider (provider : provider_arg) : outcome (option obj) :=
  match provider with
  | ProviderDefault => autoselect
  | ProviderGenerator generator => generator
  | ProviderObject p => Return p
  | ProviderPrimitive => Return None
  end.

Definition provider_warnings (provider : provider_arg) : list string :=
  match provider with
  | ProviderPrimitive => ["No provider set"]
  | _ => []
  end.

End Class.
End TrezorWallet.

(** ** The mocked serializer *)

(** [derivationPathSerializer] of core/__mocks-required__/helpers.js, the
    stand-in the test suite loads: a jest.fn that answers every call with
    the same string. *)
Definition mocked_derivationPathSerializer (coinType : Z) (addressIndex : option Z)
  : string := "mocked-derivation-path".

(** ** Test doubles

    Stand-ins for the collaborators, simple enough to run the class on
    concrete inputs.  A derived key is the root key followed by the path it
    was derived at, so that the path used shows in the result. *)
Module Fake.

#[export] Instance keys : KeyDerivation := {|
  HDKey := string * string;
  HDKey_new pk cc :=
    match pk, cc with
    | VStr p, VStr c => Return (p, c)
    | _, _ => Throw (JsError TypeError "argument must be a string")
    end;
  HDKey_derive k p := Return (fst k +:+ "@" +:+ p);
  publicKeyToAddress k := Return ("0x" +:+ k);
  validateAddress a :=
    match a with
    | VStr s => Return s
    | _ => Throw (JsError TypeError "invalid address")
    end;
|}.

#[export] Instance paths : PathCodec := {|
  derivationPathSerializer coinType addressIndex :=
    "m/44'/" +:+ String_of_nat (Z.to_nat coinType) +:+ "'/0'/0" +:+
    match addressIndex with
    | Some i => "/" +:+ String_of_nat (Z.to_nat i)
    | None => ""
    end;
  derivationPathNormalizer v := match v with VStr s => s | _ => "" end;
  derivationPath_accepts v :=
    match v with VStr s => String.prefix "m/" s | _ => false end;
  toPathArray s := Return [Z.of_nat (String.length s)];
|}.

#[export] Instance defaults : Defaults := {|
  COIN_MAINNET := 60;
  COIN_TESTNET := 1;
  MAIN_NETWORK := "homestead";
  CANCEL_ACC_EXPORT := "Cancelled";
  CANCEL_TX_SIGN := "Action cancelled by user";
  PAYLOAD_XPUB := {[ "type" := VStr "xpubimport" ]};
  PAYLOAD_SIGNTX := {[ "type" := VStr "signethtx" ]};
  PAYLOAD_SIGNMSG := {[ "type" := VStr "signethmsg" ]};
  PAYLOAD_VERIFYMSG := {[ "type" := VStr "verifyethmsg" ]};
  TYPE_HARDWARE := "hardware";
  SUBTYPE_TREZOR := "trezor";
  userExportCancel := "User cancelled the account export request";
  userSignTxCancel := "User cancelled signing the transaction";
  notSafeInteger := "Integer is not a safe integer";
  derivationPathNotValid := "Derivation path is not valid";
|}.

(** A device that gives the same answer to whatever it is asked. *)
Definition answering (answer : outcome obj) : DeviceTransport :=
  {| device := fun _ _ => answer |}.

#[export] Instance providers : Providers := {| autoselect := Return None |}.

Definition xpub : obj :=
  {[ "publicKey" := VStr "pk"; "chainCode" := VStr "cc" ]}.

Definition world0 : World := mkWorld [] [].

(** Three rejections: one that is no cancellation, and the two that bear
    the cancellation messages. *)
Definition disconnected : js_error := JsError TransportError "Device disconnected".
Definition export_cancelled : js_error := JsError TransportError "Cancelled".
Definition sign_cancelled : js_error :=
  JsError TransportError "Action cancelled by user".

(** A transaction object, and a message object. *)
Definition transaction (nonce : Z) : obj :=
  {[ "path" := VStr "m/44'/60'/0'/0/0"; "chainId" := VNum 1;
     "nonce" := VNum nonce; "to" := VStr "0xabc" ]}.

Definition signed_message : obj :=
  {[ "address" := VStr "0xabc"; "message" := VStr "Sign me";
     "signature" := VStr "c2ln" ]}.

(** The wallets the class builds from the stand-ins for one and for two
    addresses. *)
Definition wallet1 : TrezorWallet.t :=
  TrezorWallet.mk "0xpk@m/0" "pk@m/0" "m/44'/60'/0'/0/0" "hardware" "trezor"
    None None
    [AddressObject.mk "m/44'/60'/0'/0/0" "pk@m/0" "0xpk@m/0"].

Definition wallet2 : TrezorWallet.t :=
  TrezorWallet.mk "0xpk@m/0" "pk@m/0" "m/44'/60'/0'/0/0" "hardware" "trezor"
    None (Some ["0xpk@m/0"; "0xpk@m/1"])
    [AddressObject.mk "m/44'/60'/0'/0/0" "pk@m/0" "0xpk@m/0";
     AddressObject.mk "m/44'/60'/0'/0/1" "pk@m/1" "0xpk@m/1"].

(** A one-address wallet whose provider is on the given chain. *)
Definition wallet_on_chain (chainId : Z) : TrezorWallet.t :=
  TrezorWallet.mk "0xpk@m/0" "pk@m/0" "m/44'/60'/0'/0/0" "hardware" "trezor"
    (Some {[ "chainId" := VNum chainId ]}) None
    [AddressObject.mk "m/44'/60'/0'/0/0" "pk@m/0" "0xpk@m/0"].

(** A key library that refuses to derive the child at m/1. *)
Definition keys_failing_at_1 : KeyDerivation := {|
  HDKey := string * string;
  HDKey_new pk cc :=
    match pk, cc with
    | VStr p, VStr c => Return (p, c)
    | _, _ => Throw (JsError TypeError "argument must be a string")
    end;
  HDKey_derive k p :=
    if String.eqb p "m/1" then Throw (JsError TypeError "Could not derive")
    else Return (fst k +:+ "@" +:+ p);
  publicKeyToAddress k := Return ("0x" +:+ k);
  validateAddress a :=
    match a with
    | VStr s => Return s
    | _ => Throw (JsError TypeError "invalid address")
    end;
|}.

(** Path helpers whose conversion to the array form always fails. *)
Definition paths_unparsable : PathCodec := {|
  derivationPathSerializer coinType addressIndex := "not a path";
  derivationPathNormalizer v := match v with VStr s => s | _ => "" end;
  derivationPath_accepts v := true;
  toPathArray s := Throw (JsError TypeError "Path is not valid");
|}.

(** Providers: the main network, a test network, and a provider object
    that carries no name at all. *)
Definition homestead : obj := {[ "name" := VStr "homestead"; "chainId" := VNum 1 ]}.
Definition ropsten : obj :=
  {[ "name" := VStr "ropsten"; "chainId" := VNum 3; "testnet" := VBool true ]}.
Definition nameless : obj := {[ "chainId" := VNum 1 ]}.

(** The wallet that open builds behind the nameless provider: coin type 1. *)
Definition wallet1_testnet : TrezorWallet.t :=
  TrezorWallet.mk "0xpk@m/0" "pk@m/0" "m/44'/1'/0'/0/0" "hardware" "trezor"
    (Some nameless) None
    [AddressObject.mk "m/44'/1'/0'/0/0" "pk@m/0" "0xpk@m/0"].

(** What a device answers to a signing request. *)
Definition signature_rsv : obj :=
  {[ "r" := VStr "0a"; "s" := VStr "0b"; "v" := VStr "1c" ]}.

(** The path helpers with the serializer mocked. *)
Definition paths_mocked : PathCodec := {|
  derivationPathSerializer := mocked_derivationPathSerializer;
  derivationPathNormalizer v := match v with VStr s => s | _ => "" end;
  derivationPath_accepts v := match v with VStr _ => true | _ => false end;
  toPathArray s := Return [Z.of_nat (String.length s)];
|}.

(** The two-address wallet as the mocked serializer has it. *)
Definition wallet2_mocked : TrezorWallet.t :=
  TrezorWallet.mk "0xpk@m/0" "pk@m/0" "mocked-derivation-path" "hardware" "trezor"
    None (Some ["0xpk@m/0"; "0xpk@m/1"])
    [AddressObject.mk "mocked-derivation-path" "pk@m/0" "0xpk@m/0";
     AddressObject.mk "mocked-derivation-path" "pk@m/1" "0xpk@m/1"].

End Fake.

(** * Properties *)

(** ** Objects *)

Lemma get_assign2 (k : string) (a b : obj) :
  get k (Object_assign ∅ [a; b]) =
  match b !! k with Some v => v | None => get k a end.
Proof.
  unfold get, Object_assign; simpl.
  rewrite !lookup_union, lookup_empty.
  destruct (b !! k), (a !! k); reflexivity.
Qed.

Lemma get_insert_same (k : string) (v : value) (o : obj) :
  get k (<[k := v]> o) = v.
Proof. unfold get. now rewrite lookup_insert_eq. Qed.

Lemma get_insert_other (k k' : string) (v : value) (o : obj) :
  k <> k' -> get k' (<[k := v]> o) = get k' o.
Proof. intros Hne. unfold get. now rewrite lookup_insert_ne. Qed.

(** ** The safe-integer validator *)
Section Validators.
Context `{DF : Defaults}.

Lemma safeIntegerValidator_accepts (n : Z) :
  0 <= n <= MAX_SAFE_INTEGER -> safeIntegerValidator (VNum n) = Return n.
Proof.
  intros [H0 H1]. unfold safeIntegerValidator.
  apply Z.leb_le in H0, H1. now rewrite H0, H1.
Qed.

Lemma safeIntegerValidator_Return (v : value) (n : Z) :
  safeIntegerValidator v = Return n -> v = VNum n /\ 0 <= n <= MAX_SAFE_INTEGER.
Proof.
  unfold safeIntegerValidator. destruct v; try discriminate.
  destruct (Z.leb 0 n0 && Z.leb n0 MAX_SAFE_INTEGER) eqn:E; try discriminate.
  intros [= ->]. apply andb_prop in E as [H0 H1].
  apply Z.leb_le in H0, H1. auto.
Qed.

Lemma safeIntegerValidator_Throw (v : value) (e : js_error) :
  safeIntegerValidator v = Throw e -> e = JsError InputValidationError notSafeInteger.
Proof.
  unfold safeIntegerValidator. destruct v; try congruence.
  destruct (Z.leb 0 n && Z.leb n MAX_SAFE_INTEGER); congruence.
Qed.

End Validators.

(** ** Array.from *)

Lemma Array_from_go_Return {A} (f : nat -> outcome A) (n start : nat) (xs : list A) :
  Array_from_go f start n = Return xs ->
  length xs = n /\
  forall i, (i < n)%nat -> exists x, xs !! i = Some x /\ f (start + i)%nat = Return x.
Proof.
  revert start xs. induction n as [|n IH]; intros start xs; simpl.
  - intros [= <-]. split; [reflexivity | intros i Hi; lia].
  - destruct (f start) as [x|e] eqn:Hx; simpl; [|discriminate].
    destruct (Array_from_go f (S start) n) as [ys|e] eqn:Hys; simpl; [|discriminate].
    intros [= <-]. destruct (IH _ _ Hys) as [Hlen Hnth].
    split; [simpl; now rewrite Hlen|].
    intros [|i] Hi.
    + exists x. now rewrite Nat.add_0_r.
    + destruct (Hnth i) as (y & Hy & Hf); [lia|].
      exists y. split; [exact Hy|]. now rewrite <- Hf, Nat.add_succ_r.
Qed.

Lemma Array_from_go_total {A} (f : nat -> outcome A) (n start : nat) :
  (forall i, (i < n)%nat -> exists x, f (start + i)%nat = Return x) ->
  exists xs, Array_from_go f start n = Return xs.
Proof.
  revert start. induction n as [|n IH]; intros start Hf; simpl.
  - now exists [].
  - destruct (Hf 0%nat) as [x Hx]; [lia|]. rewrite Nat.add_0_r in Hx.
    rewrite Hx; simpl.
    destruct (IH (S start)) as [xs Hxs].
    + intros i Hi. destruct (Hf (S i)) as [y Hy]; [lia|].
      exists y. now rewrite <- Hy, Nat.add_succ_r.
    + rewrite Hxs. simpl. now exists (x :: xs).
Qed.

Lemma Array_from_Return {A} (f : nat -> outcome A) (len : Z) (xs : list A) :
  Array_from len f = Return xs ->
  0 <= len <= MAX_ARRAY_LENGTH /\ length xs = Z.to_nat len /\
  forall i, (i < Z.to_nat len)%nat -> exists x, xs !! i = Some x /\ f i = Return x.
Proof.
  unfold Array_from.
  destruct (Z.leb 0 len && Z.leb len MAX_ARRAY_LENGTH) eqn:E; [|discriminate].
  intros H. apply andb_prop in E as [H0 H1]. apply Z.leb_le in H0, H1.
  apply Array_from_go_Return in H as [Hlen Hnth]. auto.
Qed.

(** ** The constructor *)
Section Construction.
Context `{KD : KeyDerivation} `{PC : PathCodec} `{DF : Defaults}.

Lemma member_Return {A B} (arr : list A) (i : Z) (field : A -> B) (b : B) :
  member arr i field = Return b ->
  exists x, 0 <= i /\ arr !! Z.to_nat i = Some x /\ b = field x.
Proof.
  unfold member, index. destruct (Z.leb 0 i) eqn:Hi; [|discriminate].
  destruct (arr !! Z.to_nat i) as [x|]; [|discriminate].
  intros [= <-]. exists x. apply Z.leb_le in Hi. auto.
Qed.

Lemma member_lookup {A B} (arr : list A) (i : Z) (field : A -> B) (x : A) :
  0 <= i -> arr !! Z.to_nat i = Some x -> member arr i field = Return (field x).
Proof.
  intros Hi Hx. unfold member, index.
  apply Z.leb_le in Hi. now rewrite Hi, Hx.
Qed.

(** What a successful [new TrezorWallet(...)] has gone through. *)
Lemma constructor_Return pk cc coinType addressCount prov w :
  TrezorWallet.constructor pk cc coinType addressCount prov = Return w ->
  exists count hdKey records r0,
    safeIntegerValidator (with_default (VNum 10) addressCount) = Return count /\
    HDKey_new pk cc = Return hdKey /\
    Array_from (if Z.eqb count 0 then 1 else count)
               (TrezorWallet.deriveAddress hdKey coinType) = Return records /\
    records !! 0%nat = Some r0 /\
    w = TrezorWallet.mk (AddressObject.address r0) (AddressObject.publicKey r0)
          (AddressObject.path r0) TYPE_HARDWARE SUBTYPE_TREZOR prov
          (if Z.ltb 1 count then Some (map AddressObject.address records) else None)
          records.
Proof.
  unfold TrezorWallet.constructor.
  destruct (safeIntegerValidator _) as [count|] eqn:Hc; simpl; [|discriminate].
  destruct (HDKey_new pk cc) as [hdKey|] eqn:Hk; simpl; [|discriminate].
  destruct (Array_from _ _) as [records|] eqn:Hr; simpl; [|discriminate].
  destruct (member records 0 AddressObject.address) as [a|] eqn:Ha; simpl; [|discriminate].
  destruct (member records 0 AddressObject.publicKey) as [k|] eqn:Hpk; simpl; [|discriminate].
  destruct (member records 0 AddressObject.path) as [p|] eqn:Hp; simpl; [|discriminate].
  intros [= <-].
  apply member_Return in Ha as (r0 & _ & Hr0 & ->).
  apply member_Return in Hpk as (r1 & _ & Hr1 & ->).
  apply member_Return in Hp as (r2 & _ & Hr2 & ->).
  simpl in Hr0, Hr1, Hr2.
  assert (r1 = r0) as -> by congruence. assert (r2 = r0) as -> by congruence.
  exists count, hdKey, records, r0. auto.
Qed.

(** The number of address objects is the address count, or one when the
    count is zero. *)
Lemma constructor_length pk cc coinType count prov w :
  TrezorWallet.constructor pk cc coinType (VNum count) prov = Return w ->
  0 <= count <= MAX_ARRAY_LENGTH /\
  Z.of_nat (length (TrezorWallet.allAddresses w)) = Z.max count 1.
Proof.
  intros H. apply constructor_Return in H
    as (n & hdKey & records & r0 & Hn & _ & Hrec & _ & ->).
  cbn [with_default] in Hn.
  apply safeIntegerValidator_Return in Hn as [[= <-] [H0 _]].
  apply Array_from_Return in Hrec as ([_ Hmax] & Hlen & _). simpl.
  rewrite Hlen. destruct (Z.eqb_spec count 0) as [->|Hne].
  - split; [unfold MAX_ARRAY_LENGTH; lia | reflexivity].
  - split; [lia|]. rewrite Z2Nat.id; lia.
Qed.

(** Each address object is derived from its own index alone: the key at the
    path m/index under the root key, the address from that key; the coin
    type goes into the path string that is stored next to them. *)
Lemma constructor_records pk cc coinType addressCount prov w :
  TrezorWallet.constructor pk cc coinType addressCount prov = Return w ->
  exists hdKey, HDKey_new pk cc = Return hdKey /\
  forall i, (i < length (TrezorWallet.allAddresses w))%nat ->
  exists r, TrezorWallet.allAddresses w !! i = Some r /\
    HDKey_derive hdKey ("m/" +:+ String_of_nat i) = Return (AddressObject.publicKey r) /\
    publicKeyToAddress (AddressObject.publicKey r) = Return (AddressObject.address r) /\
    AddressObject.path r = derivationPathSerializer coinType (Some (Z.of_nat i)).
Proof.
  intros H. apply constructor_Return in H
    as (n & hdKey & records & r0 & _ & Hk & Hrec & _ & ->).
  exists hdKey. split; [exact Hk|]. simpl.
  apply Array_from_Return in Hrec as (_ & Hlen & Hnth).
  intros i Hi. rewrite Hlen in Hi.
  destruct (Hnth i Hi) as (r & Hr & Hd). exists r. split; [exact Hr|].
  unfold TrezorWallet.deriveAddress in Hd.
  destruct (HDKey_derive hdKey _) as [k|]; simpl in Hd; [|discriminate].
  destruct (publicKeyToAddress k) as [a|] eqn:Ha; simpl in Hd; [|discriminate].
  injection Hd as <-. simpl. auto.
Qed.

(** X2.  The constructor does return a wallet whenever the count fits an
    array and the key library neither refuses the root key nor any of the
    child derivations. *)
Lemma constructor_returns pk cc coinType (count : Z) prov hdKey :
  0 <= count <= MAX_ARRAY_LENGTH ->
  HDKey_new pk cc = Return hdKey ->
  (forall i : nat, Z.of_nat i < Z.max count 1 ->
     exists k a, HDKey_derive hdKey ("m/" +:+ String_of_nat i) = Return k /\
                 publicKeyToAddress k = Return a) ->
  exists w, TrezorWallet.constructor pk cc coinType (VNum count) prov = Return w.
Proof.
  intros Hcount Hk Hderive. unfold TrezorWallet.constructor. cbn [with_default].
  rewrite safeIntegerValidator_accepts
    by (unfold MAX_ARRAY_LENGTH, MAX_SAFE_INTEGER in *; lia).
  simpl. rewrite Hk. simpl.
  set (len := if Z.eqb count 0 then 1 else count).
  assert (Hlen : len = Z.max count 1) by (subst len; destruct (Z.eqb_spec count 0); lia).
  unfold Array_from.
  assert (Z.leb 0 len && Z.leb len MAX_ARRAY_LENGTH = true) as ->.
  { apply andb_true_intro. split; apply Z.leb_le;
      unfold MAX_ARRAY_LENGTH in *; lia. }
  destruct (Array_from_go_total (TrezorWallet.deriveAddress hdKey coinType)
              (Z.to_nat len) 0) as [records Hrecords].
  { intros i Hi. destruct (Hderive i) as (k & a & Hk' & Ha); [lia|].
    unfold TrezorWallet.deriveAddress. simpl. rewrite Hk'. simpl. rewrite Ha.
    simpl. eauto. }
  rewrite Hrecords. simpl.
  apply Array_from_go_Return in Hrecords as [Hlength _].
  destruct records as [|r0 records]; [simpl in Hlength; lia|].
  unfold member, index. simpl. eauto.
Qed.

End Construction.

(** ** setDefaultAddress *)
Section DefaultAddress.
Context `{KD : KeyDerivation} `{PC : PathCodec} `{DF : Defaults}.

(** An index that has an address object: the default triple becomes that
    object's, nothing else changes. *)
Lemma setDefaultAddress_hit (w : TrezorWallet.t) (i : Z) (r : AddressObject.t) :
  0 <= i <= MAX_SAFE_INTEGER ->
  TrezorWallet.allAddresses w !! Z.to_nat i = Some r ->
  TrezorWallet.setDefaultAddress (VNum i) w =
  (Return true,
   TrezorWallet.mk (AddressObject.address r) (AddressObject.publicKey r)
     (AddressObject.path r) (TrezorWallet.type w) (TrezorWallet.subtype w)
     (TrezorWallet.provider w) (TrezorWallet.otherAddresses w)
     (TrezorWallet.allAddresses w)).
Proof.
  intros Hi Hr. pose proof (lookup_lt_Some _ _ _ Hr) as Hlt.
  unfold TrezorWallet.setDefaultAddress, bind, lift, gets. cbn [with_default].
  rewrite (safeIntegerValidator_accepts i Hi).
  assert (Z.leb 0 i && Z.leb i (Z.of_nat (length (TrezorWallet.allAddresses w))) = true) as ->.
  { apply andb_true_intro. split; apply Z.leb_le; lia. }
  rewrite !(member_lookup _ i _ r) by (lia || exact Hr).
  reflexivity.
Qed.

(** An index past the length of the array: false, and the wallet is as it
    was. *)
Lemma setDefaultAddress_miss (w : TrezorWallet.t) (i : Z) :
  0 <= i <= MAX_SAFE_INTEGER ->
  Z.of_nat (length (TrezorWallet.allAddresses w)) < i ->
  TrezorWallet.setDefaultAddress (VNum i) w = (Return false, w).
Proof.
  intros Hi Hlt.
  unfold TrezorWallet.setDefaultAddress, bind, lift, gets. cbn [with_default].
  rewrite (safeIntegerValidator_accepts i Hi).
  assert (Z.leb i (Z.of_nat (length (TrezorWallet.allAddresses w))) = false) as ->
    by (apply Z.leb_gt; lia).
  now rewrite andb_false_r.
Qed.

(** X1.  The index equal to the length of the array passes the range test
    and then reads an array element that does not exist: the call throws a
    TypeError before anything is assigned, on every wallet. *)
Lemma setDefaultAddress_at_length (w : TrezorWallet.t) (i : Z) :
  0 <= i <= MAX_SAFE_INTEGER ->
  i = Z.of_nat (length (TrezorWallet.allAddresses w)) ->
  TrezorWallet.setDefaultAddress (VNum i) w =
  (Throw (JsError TypeError "Cannot read property of undefined"), w).
Proof.
  intros Hi Hlen.
  unfold TrezorWallet.setDefaultAddress, bind, lift, gets. cbn [with_default].
  rewrite (safeIntegerValidator_accepts i Hi).
  assert (Z.leb 0 i && Z.leb i (Z.of_nat (length (TrezorWallet.allAddresses w))) = true) as ->.
  { apply andb_true_intro. split; apply Z.leb_le; lia. }
  unfold member, index.
  assert (Z.leb 0 i = true) as -> by (apply Z.leb_le; lia).
  rewrite (lookup_ge_None_2 (TrezorWallet.allAddresses w) (Z.to_nat i)) by lia.
  reflexivity.
Qed.

(** X23.  Away from the boundary the method does what its documentation
    says.  On a wallet built with addressCount >= 1, for an index the
    safe-integer validator accepts: setDefaultAddress returns true and makes
    the indexed address object's address, public key and path the default
    ones when index < addressCount (index 0 included), and returns false,
    leaving the wallet as it was, when index > addressCount.  In both cases
    nothing is thrown and otherAddresses is untouched. *)
Theorem setDefaultAddress_within_and_beyond
    pk cc coinType (count : Z) prov (w : TrezorWallet.t) (i : Z) :
  TrezorWallet.constructor pk cc coinType (VNum count) prov = Return w ->
  1 <= count ->
  0 <= i <= MAX_SAFE_INTEGER ->
  (i < count ->
   exists r, TrezorWallet.allAddresses w !! Z.to_nat i = Some r /\
     TrezorWallet.setDefaultAddress (VNum i) w =
     (Return true,
      TrezorWallet.mk (AddressObject.address r) (AddressObject.publicKey r)
        (AddressObject.path r) (TrezorWallet.type w) (TrezorWallet.subtype w)
        (TrezorWallet.provider w) (TrezorWallet.otherAddresses w)
        (TrezorWallet.allAddresses w))) /\
  (count < i ->
   TrezorWallet.setDefaultAddress (VNum i) w = (Return false, w)).
Proof.
  intros Hw Hcount Hi.
  destruct (constructor_length _ _ _ _ _ _ Hw) as [_ Hlen].
  rewrite Z.max_l in Hlen by lia. split.
  - intros Hlt.
    destruct (lookup_lt_is_Some_2 (TrezorWallet.allAddresses w) (Z.to_nat i))
      as [r Hr]; [lia|].
    exists r. split; [exact Hr|]. now apply setDefaultAddress_hit.
  - intros Hgt. apply setDefaultAddress_miss; [exact Hi | lia].
Qed.

(** C1, at the boundary.  The range test admits the index equal to the
    number of derived addresses, as the claim says, but the call does not
    succeed there: on every wallet built with addressCount >= 1,
    setDefaultAddress(addressCount) passes the validator and the test
    [addressIndex <= otherAddresses.length], then reads the address of an
    array element that does not exist, so that it throws a TypeError where
    the method's documentation promises a boolean; the wallet is left
    unchanged. *)
Theorem C1_setDefaultAddress_count_rejects
    pk cc coinType (count : Z) prov (w : TrezorWallet.t) :
  TrezorWallet.constructor pk cc coinType (VNum count) prov = Return w ->
  1 <= count ->
  safeIntegerValidator (VNum count) = Return count /\
  0 <= count <= Z.of_nat (length (TrezorWallet.allAddresses w)) /\
  TrezorWallet.setDefaultAddress (VNum count) w =
    (Throw (JsError TypeError "Cannot read property of undefined"), w) /\
  fst (TrezorWallet.setDefaultAddress (VNum count) w) <> Return true.
Proof.
  intros Hw Hcount.
  destruct (constructor_length _ _ _ _ _ _ Hw) as [[_ Hmax] Hlen].
  rewrite Z.max_l in Hlen by lia.
  assert (Hsafe : safeIntegerValidator (VNum count) = Return count).
  { apply safeIntegerValidator_accepts.
    unfold MAX_ARRAY_LENGTH, MAX_SAFE_INTEGER in *. lia. }
  assert (Hthrows : TrezorWallet.setDefaultAddress (VNum count) w =
            (Throw (JsError TypeError "Cannot read property of undefined"), w)).
  { unfold TrezorWallet.setDefaultAddress, bind, lift, gets. cbn [with_default].
    rewrite Hsafe.
    assert (Z.leb 0 count
            && Z.leb count (Z.of_nat (length (TrezorWallet.allAddresses w))) = true)
      as -> by (apply andb_true_intro; split; apply Z.leb_le; lia).
    unfold member, index.
    assert (Z.leb 0 count = true) as -> by (apply Z.leb_le; lia).
    rewrite (lookup_ge_None_2 (TrezorWallet.allAddresses w) (Z.to_nat count)) by lia.
    reflexivity. }
  split; [exact Hsafe|]. split; [lia|]. split; [exact Hthrows|].
  rewrite Hthrows. discriminate.
Qed.

End DefaultAddress.


(** ** Derivation and the otherAddresses property *)
Section Derivation.
Context `{KD : KeyDerivation} `{PC : PathCodec} `{DF : Defaults}.

(** Changing the coin type changes neither whether the derivation goes
    through nor the keys and addresses it gives. *)
Lemma Array_from_go_coinType hdKey (c c' : Z) (n start : nat) xs :
  Array_from_go (TrezorWallet.deriveAddress hdKey c) start n = Return xs ->
  exists ys,
    Array_from_go (TrezorWallet.deriveAddress hdKey c') start n = Return ys /\
    map AddressObject.publicKey ys = map AddressObject.publicKey xs /\
    map AddressObject.address ys = map AddressObject.address xs.
Proof.
  revert start xs. induction n as [|n IH]; intros start xs; simpl.
  - intros [= <-]. now exists [].
  - unfold TrezorWallet.deriveAddress at 1 3.
    destruct (HDKey_derive hdKey _) as [k|]; simpl; [|discriminate].
    destruct (publicKeyToAddress k) as [a|]; simpl; [|discriminate].
    destruct (Array_from_go (TrezorWallet.deriveAddress hdKey c) (S start) n)
      as [xs'|] eqn:Hxs; simpl; [|discriminate].
    intros [= <-]. destruct (IH _ _ Hxs) as (ys & -> & Hk & Ha). simpl.
    eexists. split; [reflexivity|]. simpl. now rewrite Hk, Ha.
Qed.

(** C2, amended.  For every index i in [0, count), the constructor derives
    the i-th child key at the path m/{i} under the root key: the public key
    of address object i is that child key and its address is computed from
    that key, so both are a function of (publicKey, chainCode, i).  The coin
    type goes into the serialized path string stored in the object and
    nowhere else: a wallet built from the same root key with any other coin
    type has the same public keys and addresses. *)
Theorem C2_child_key_at_index_path
    pk cc coinType (count : Z) prov (w : TrezorWallet.t) :
  TrezorWallet.constructor pk cc coinType (VNum count) prov = Return w ->
  (exists hdKey, HDKey_new pk cc = Return hdKey /\
     forall i : nat, Z.of_nat i < count ->
     exists r, TrezorWallet.allAddresses w !! i = Some r /\
       HDKey_derive hdKey ("m/" +:+ String_of_nat i)
         = Return (AddressObject.publicKey r) /\
       publicKeyToAddress (AddressObject.publicKey r)
         = Return (AddressObject.address r) /\
       AddressObject.path r
         = derivationPathSerializer coinType (Some (Z.of_nat i))) /\
  (forall coinType', exists w',
     TrezorWallet.constructor pk cc coinType' (VNum count) prov = Return w' /\
     map AddressObject.publicKey (TrezorWallet.allAddresses w')
       = map AddressObject.publicKey (TrezorWallet.allAddresses w) /\
     map AddressObject.address (TrezorWallet.allAddresses w')
       = map AddressObject.address (TrezorWallet.allAddresses w)).
Proof.
  intros Hw. split.
  - destruct (constructor_records _ _ _ _ _ _ Hw) as (hdKey & Hk & Hrec).
    destruct (constructor_length _ _ _ _ _ _ Hw) as [_ Hlen].
    exists hdKey. split; [exact Hk|].
    intros i Hi. apply Hrec. lia.
  - intros coinType'.
    apply constructor_Return in Hw
      as (n & hdKey & records & r0 & Hn & Hk & Hrec & Hr0 & ->).
    unfold TrezorWallet.constructor. rewrite Hn, Hk. simpl.
    unfold Array_from in *.
    destruct (Z.leb 0 _ && Z.leb _ MAX_ARRAY_LENGTH); [|discriminate].
    destruct (Array_from_go_coinType _ _ coinType' _ _ _ Hrec)
      as (ys & -> & Hkeys & Haddrs). simpl.
    destruct ys as [|y ys]; [destruct records; discriminate|].
    unfold member, index. simpl.
    eexists. split; [reflexivity|]. simpl. auto.
Qed.

(** C3, amended.  For a wallet built with addressCount > 1, otherAddresses
    holds the addresses of all the derived address objects, index 0
    included, in derivation order, so that its length is addressCount and
    its first entry is the default address the wallet starts with; for
    addressCount <= 1 the property is absent. *)
Theorem C3_otherAddresses_holds_all
    pk cc coinType (count : Z) prov (w : TrezorWallet.t) :
  TrezorWallet.constructor pk cc coinType (VNum count) prov = Return w ->
  (1 < count ->
   exists addresses,
     TrezorWallet.otherAddresses w = Some addresses /\
     addresses = map AddressObject.address (TrezorWallet.allAddresses w) /\
     Z.of_nat (length addresses) = count /\
     addresses !! 0%nat = Some (TrezorWallet.address w)) /\
  (count <= 1 -> TrezorWallet.otherAddresses w = None).
Proof.
  intros Hw. destruct (constructor_length _ _ _ _ _ _ Hw) as [_ Hlen].
  apply constructor_Return in Hw
    as (n & hdKey & records & r0 & Hn & _ & _ & Hr0 & ->).
  cbn [with_default] in Hn.
  apply safeIntegerValidator_Return in Hn as [[= <-] _].
  simpl in *. split.
  - intros Hc. assert (Z.ltb 1 count = true) as -> by (apply Z.ltb_lt; lia).
    eexists. split; [reflexivity|]. split; [reflexivity|].
    rewrite length_map. split; [lia|].
    now rewrite list_lookup_fmap, Hr0.
  - intros Hc. now assert (Z.ltb 1 count = false) as -> by (apply Z.ltb_ge; lia).
Qed.

End Derivation.

(** ** One round trip to the device *)
Section Protocol.
Context `{KD : KeyDerivation} `{PC : PathCodec} `{DF : Defaults}
        `{DT : DeviceTransport} `{PR : Providers}.

(** Run the first statement of a method body: a lifted computation whose
    outcome the hypothesis [H] gives. *)
Ltac run_lifted H := unfold bind at 1; unfold lift at 1; rewrite H.

(** The warning a catch block prints: only for its own sentinel. *)
Lemma catch_block (sentinel text : string) (e : js_error) (A : Type) (w : World) :
  ((if String.eqb (message e) sentinel then warning text else ret tt) ;;
   ret (@None A)) w =
  (Return None,
   mkWorld (warnings w ++ (if String.eqb (message e) sentinel then [text] else []))%list
           (requests w)).
Proof.
  unfold bind, warning, modify, ret.
  destruct (String.eqb (message e) sentinel); simpl.
  - reflexivity.
  - rewrite app_nil_r. now destruct w.
Qed.

(** signTransaction, once its validators and the path conversion have gone
    through: one request, and whatever the device does with it, the call
    returns. *)
Lemma signTransaction_runs (args : obj) (n c : Z) (address_n : list Z) (w : World) :
  derivationPath_accepts (get "path" args) = true ->
  safeIntegerValidator (with_default (VNum 0) (get "nonce" args)) = Return n ->
  safeIntegerValidator (get "chainId" args) = Return c ->
  toPathArray (derivationPathNormalizer (get "path" args)) = Return address_n ->
  TrezorWallet.signTransaction args w =
  let payload := TrezorWallet.signTransaction_payload args (toString16 n) address_n in
  match device (requests w) payload with
  | Return signedTransaction =>
      (Return (Some signedTransaction),
       mkWorld (warnings w) (requests w ++ [payload]))
  | Throw e =>
      (Return None,
       mkWorld (warnings w ++
                (if String.eqb (message e) CANCEL_TX_SIGN
                 then [userSignTxCancel] else []))%list
               (requests w ++ [payload]))
  end.
Proof.
  intros Hp Hn Hc Ha.
  unfold TrezorWallet.signTransaction, derivationPathValidator.
  run_lifted Hp. run_lifted Hn. run_lifted Hc. run_lifted Ha.
  unfold try_catch. unfold bind at 1. unfold payloadListener at 1.
  cbv zeta. destruct (device _ _) as [resp|e].
  - reflexivity.
  - now rewrite catch_block.
Qed.

(** open, once the provider is there and the path conversion has gone
    through: one request; then the constructor runs on the answer, and
    whatever is thrown from the request on, the call returns. *)
Lemma open_runs addressCount provider (providerMode : option obj)
    (pathArray : list Z) (w : World) :
  TrezorWallet.awaited_provider provider = Return providerMode ->
  toPathArray (derivationPathSerializer
                 (TrezorWallet.coinType_of providerMode) None) = Return pathArray ->
  TrezorWallet.open addressCount provider w =
  let payload := TrezorWallet.open_payload pathArray in
  let warned := (warnings w ++ TrezorWallet.provider_warnings provider)%list in
  let caught (e : js_error) :=
    (Return None,
     mkWorld (warned ++ (if String.eqb (message e) CANCEL_ACC_EXPORT
                         then [userExportCancel] else []))%list
             (requests w ++ [payload])) in
  match device (requests w) payload with
  | Return response =>
      match TrezorWallet.constructor (get "publicKey" response)
              (get "chainCode" response)
              (TrezorWallet.coinType_of providerMode) addressCount providerMode with
      | Return walletInstance =>
          (Return (Some walletInstance), mkWorld warned (requests w ++ [payload]))
      | Throw e => caught e
      end
  | Throw e => caught e
  end.
Proof.
  intros Hprov Hpath. unfold TrezorWallet.open.
  unfold bind, lift, ret, try_catch, payloadListener, warning, modify.
  destruct provider; simpl in Hprov;
    try rewrite Hprov; try injection Hprov as <-;
    cbn -[TrezorWallet.coinType_of String.eqb TrezorWallet.constructor];
    rewrite Hpath;
    cbn -[TrezorWallet.coinType_of String.eqb TrezorWallet.constructor].
  all: rewrite ?app_nil_r.
  all: destruct (device _ _) as [response|e]; [|destruct (String.eqb _ _)].
  all: try destruct (TrezorWallet.constructor _ _ _ _ _) as [walletInstance|e];
    try destruct (String.eqb _ _).
  all: simpl; rewrite ?app_nil_r, <- ?app_assoc; reflexivity.
Qed.

(** signMessage and verifyMessage have no catch block: past their own
    checks, the outcome of the call is the outcome of the round trip. *)
Lemma signMessage_runs (args : obj) (pathArray : list Z) (w : World) :
  derivationPath_accepts (get "path" args) = true ->
  toPathArray (derivationPathNormalizer (get "path" args)) = Return pathArray ->
  TrezorWallet.signMessage args w =
  let payload := TrezorWallet.signMessage_payload pathArray (get "message" args) in
  (match device (requests w) payload with
   | Return response => Return (get "signature" response)
   | Throw e => Throw e
   end,
   mkWorld (warnings w) (requests w ++ [payload])).
Proof.
  intros Hp Ha.
  unfold TrezorWallet.signMessage, derivationPathValidator,
    bind, lift, ret, payloadListener.
  rewrite Hp, Ha. cbv zeta. now destruct (device _ _).
Qed.

Lemma verifyMessage_runs (args : obj) (validatedAddress : string) (w : World) :
  validateAddress (get "address" args) = Return validatedAddress ->
  TrezorWallet.verifyMessage args w =
  let payload := TrezorWallet.verifyMessage_payload args validatedAddress in
  (match device (requests w) payload with
   | Return response => Return (get "success" response)
   | Throw e => Throw e
   end,
   mkWorld (warnings w) (requests w ++ [payload])).
Proof.
  intros Hv.
  unfold TrezorWallet.verifyMessage, bind, lift, ret, payloadListener.
  rewrite Hv. cbv zeta. now destruct (device _ _).
Qed.

(** With a device that rejects whatever it is asked, neither of them can
    return: what comes out is an exception, their own or the device's. *)
Lemma signMessage_never_returns (args : obj) (w : World) :
  (forall payload, exists e, device (requests w) payload = Throw e) ->
  exists e, fst (TrezorWallet.signMessage args w) = Throw e.
Proof.
  intros Hdev.
  unfold TrezorWallet.signMessage, derivationPathValidator,
    bind, lift, ret, payloadListener.
  destruct (derivationPath_accepts _); simpl; [|eauto].
  destruct (toPathArray _) as [pathArray|e0]; simpl; [|eauto].
  destruct (Hdev (TrezorWallet.signMessage_payload pathArray (get "message" args)))
    as [e He].
  rewrite He. simpl. eauto.
Qed.

Lemma verifyMessage_never_returns (args : obj) (w : World) :
  (forall payload, exists e, device (requests w) payload = Throw e) ->
  exists e, fst (TrezorWallet.verifyMessage args w) = Throw e.
Proof.
  intros Hdev.
  unfold TrezorWallet.verifyMessage, bind, lift, ret, payloadListener.
  destruct (validateAddress _) as [validated|e0]; simpl; [|eauto].
  destruct (Hdev (TrezorWallet.verifyMessage_payload args validated)) as [e He].
  rewrite He. simpl. eauto.
Qed.

(** C6.  A rejection whose message is the cancellation sentinel of the flow
    is turned into an absent result and a warning: open resolves to
    undefined after printing the export-cancelled warning, and
    signTransaction returns undefined after printing the
    signing-cancelled warning. *)
Theorem C6_cancellation_is_absent_result_and_warning :
  (forall addressCount provider providerMode pathArray (w : World) e,
     TrezorWallet.awaited_provider provider = Return providerMode ->
     toPathArray (derivationPathSerializer
                    (TrezorWallet.coinType_of providerMode) None)
       = Return pathArray ->
     device (requests w) (TrezorWallet.open_payload pathArray) = Throw e ->
     message e = CANCEL_ACC_EXPORT ->
     TrezorWallet.open addressCount provider w =
     (Return None,
      mkWorld (warnings w ++ TrezorWallet.provider_warnings provider
                          ++ [userExportCancel])%list
              (requests w ++ [TrezorWallet.open_payload pathArray]))) /\
  (forall (args : obj) n c address_n (w : World) e,
     derivationPath_accepts (get "path" args) = true ->
     safeIntegerValidator (with_default (VNum 0) (get "nonce" args)) = Return n ->
     safeIntegerValidator (get "chainId" args) = Return c ->
     toPathArray (derivationPathNormalizer (get "path" args)) = Return address_n ->
     device (requests w)
            (TrezorWallet.signTransaction_payload args (toString16 n) address_n)
       = Throw e ->
     message e = CANCEL_TX_SIGN ->
     TrezorWallet.signTransaction args w =
     (Return None,
      mkWorld (warnings w ++ [userSignTxCancel])%list
              (requests w ++
               [TrezorWallet.signTransaction_payload args (toString16 n) address_n]))).
Proof.
  split.
  - intros addressCount provider providerMode pathArray w e Hprov Hpath Hdev Hmsg.
    rewrite (open_runs _ _ _ _ _ Hprov Hpath). cbv zeta.
    rewrite Hdev, Hmsg, String.eqb_refl. now rewrite <- app_assoc.
  - intros args n c address_n w e Hp Hn Hc Ha Hdev Hmsg.
    rewrite (signTransaction_runs _ _ _ _ _ Hp Hn Hc Ha). cbv zeta.
    now rewrite Hdev, Hmsg, String.eqb_refl.
Qed.

(** C7.  signMessage and verifyMessage know no cancellation sentinel.  When
    the device rejects their request, with whatever error (one bearing a
    cancellation message included), that very error is what the call
    throws, and nothing is printed; this holds for the static methods and
    so for the wallet's own, which delegate to them.  Against a device that
    rejects everything, none of the four ever returns a value. *)
Theorem C7_message_operations_propagate :
  (forall (args : obj) pathArray (w : World) e,
     derivationPath_accepts (get "path" args) = true ->
     toPathArray (derivationPathNormalizer (get "path" args)) = Return pathArray ->
     device (requests w)
            (TrezorWallet.signMessage_payload pathArray (get "message" args))
       = Throw e ->
     TrezorWallet.signMessage args w =
     (Throw e,
      mkWorld (warnings w)
        (requests w ++
         [TrezorWallet.signMessage_payload pathArray (get "message" args)]))) /\
  (forall (args : obj) validatedAddress (w : World) e,
     validateAddress (get "address" args) = Return validatedAddress ->
     device (requests w) (TrezorWallet.verifyMessage_payload args validatedAddress)
       = Throw e ->
     TrezorWallet.verifyMessage args w =
     (Throw e,
      mkWorld (warnings w)
        (requests w ++ [TrezorWallet.verifyMessage_payload args validatedAddress]))) /\
  (forall (this : TrezorWallet.t) (args : obj) (w : World),
     (forall payload, exists e, device (requests w) payload = Throw e) ->
     (exists e, fst (TrezorWallet.signMessage args w) = Throw e) /\
     (exists e, fst (TrezorWallet.verifyMessage args w) = Throw e) /\
     (exists e, fst (TrezorWallet.wallet_signMessage this args w) = Throw e) /\
     (exists e, fst (TrezorWallet.wallet_verifyMessage this args w) = Throw e)).
Proof.
  split; [|split].
  - intros args pathArray w e Hp Ha Hdev.
    rewrite (signMessage_runs _ _ _ Hp Ha). cbv zeta. now rewrite Hdev.
  - intros args validated w e Hv Hdev.
    rewrite (verifyMessage_runs _ _ _ Hv). cbv zeta. now rewrite Hdev.
  - intros this args w Hdev. repeat split.
    + now apply signMessage_never_returns.
    + now apply verifyMessage_never_returns.
    + now apply signMessage_never_returns.
    + now apply verifyMessage_never_returns.
Qed.

(** C4, as the code has it.  In open and in signTransaction a rejection
    whose message is not the cancellation sentinel does not reach the
    caller: the catch block skips the warning and returns undefined all the
    same. *)
Theorem C4_other_rejections_are_swallowed :
  (forall addressCount provider providerMode pathArray (w : World) e,
     TrezorWallet.awaited_provider provider = Return providerMode ->
     toPathArray (derivationPathSerializer
                    (TrezorWallet.coinType_of providerMode) None)
       = Return pathArray ->
     device (requests w) (TrezorWallet.open_payload pathArray) = Throw e ->
     message e <> CANCEL_ACC_EXPORT ->
     TrezorWallet.open addressCount provider w =
     (Return None,
      mkWorld (warnings w ++ TrezorWallet.provider_warnings provider)%list
              (requests w ++ [TrezorWallet.open_payload pathArray]))) /\
  (forall (args : obj) n c address_n (w : World) e,
     derivationPath_accepts (get "path" args) = true ->
     safeIntegerValidator (with_default (VNum 0) (get "nonce" args)) = Return n ->
     safeIntegerValidator (get "chainId" args) = Return c ->
     toPathArray (derivationPathNormalizer (get "path" args)) = Return address_n ->
     device (requests w)
            (TrezorWallet.signTransaction_payload args (toString16 n) address_n)
       = Throw e ->
     message e <> CANCEL_TX_SIGN ->
     TrezorWallet.signTransaction args w =
     (Return None,
      mkWorld (warnings w)
              (requests w ++
               [TrezorWallet.signTransaction_payload args (toString16 n) address_n]))).
Proof.
  split.
  - intros addressCount provider providerMode pathArray w e Hprov Hpath Hdev Hmsg.
    rewrite (open_runs _ _ _ _ _ Hprov Hpath). cbv zeta. rewrite Hdev.
    apply String.eqb_neq in Hmsg. rewrite Hmsg. now rewrite app_nil_r.
  - intros args n c address_n w e Hp Hn Hc Ha Hdev Hmsg.
    rewrite (signTransaction_runs _ _ _ _ _ Hp Hn Hc Ha). cbv zeta. rewrite Hdev.
    apply String.eqb_neq in Hmsg. rewrite Hmsg. now rewrite app_nil_r.
Qed.

(** X3.  Where a validator's exception does reach the caller: the
    constructor called directly, setDefaultAddress, and the checks
    signTransaction and signMessage make before they turn to the device. *)
Lemma validator_errors_propagate :
  (forall pk cc coinType addressCount prov e,
     safeIntegerValidator (with_default (VNum 10) addressCount) = Throw e ->
     TrezorWallet.constructor pk cc coinType addressCount prov = Throw e) /\
  (forall addressIndex (this : TrezorWallet.t) e,
     safeIntegerValidator (with_default (VNum 0) addressIndex) = Throw e ->
     TrezorWallet.setDefaultAddress addressIndex this = (Throw e, this)) /\
  (forall (args : obj) (w : World),
     derivationPath_accepts (get "path" args) = false ->
     TrezorWallet.signTransaction args w =
       (Throw (JsError InputValidationError derivationPathNotValid), w) /\
     TrezorWallet.signMessage args w =
       (Throw (JsError InputValidationError derivationPathNotValid), w)) /\
  (forall (args : obj) (w : World) e,
     derivationPath_accepts (get "path" args) = true ->
     safeIntegerValidator (with_default (VNum 0) (get "nonce" args)) = Throw e ->
     TrezorWallet.signTransaction args w = (Throw e, w)) /\
  (forall (args : obj) (w : World) n e,
     derivationPath_accepts (get "path" args) = true ->
     safeIntegerValidator (with_default (VNum 0) (get "nonce" args)) = Return n ->
     safeIntegerValidator (get "chainId" args) = Throw e ->
     TrezorWallet.signTransaction args w = (Throw e, w)).
Proof.
  repeat split.
  - intros pk cc coinType addressCount prov e He.
    unfold TrezorWallet.constructor. now rewrite He.
  - intros addressIndex this e He.
    unfold TrezorWallet.setDefaultAddress, bind, lift. now rewrite He.
  - unfold TrezorWallet.signTransaction, derivationPathValidator, bind, lift.
    now match goal with Hp : _ = false |- _ => rewrite Hp end.
  - unfold TrezorWallet.signMessage, derivationPathValidator, bind, lift.
    now match goal with Hp : _ = false |- _ => rewrite Hp end.
  - intros args w e Hp He.
    unfold TrezorWallet.signTransaction, derivationPathValidator, bind, lift.
    now rewrite Hp, He.
  - intros args w n e Hp Hn He.
    unfold TrezorWallet.signTransaction, derivationPathValidator, bind, lift.
    now rewrite Hp, Hn, He.
Qed.

(** X4.  The good case of open: the device answers the export request and
    the constructor accepts the answer; open resolves to the wallet built
    from the exported key, with the coin type the provider calls for, after
    exactly one request. *)
Lemma open_resolves_to_wallet addressCount provider providerMode pathArray
    (w : World) response walletInstance :
  TrezorWallet.awaited_provider provider = Return providerMode ->
  toPathArray (derivationPathSerializer
                 (TrezorWallet.coinType_of providerMode) None) = Return pathArray ->
  device (requests w) (TrezorWallet.open_payload pathArray) = Return response ->
  TrezorWallet.constructor (get "publicKey" response) (get "chainCode" response)
    (TrezorWallet.coinType_of providerMode) addressCount providerMode
    = Return walletInstance ->
  TrezorWallet.open addressCount provider w =
  (Return (Some walletInstance),
   mkWorld (warnings w ++ TrezorWallet.provider_warnings provider)%list
           (requests w ++ [TrezorWallet.open_payload pathArray])).
Proof.
  intros Hprov Hpath Hdev Hctor.
  rewrite (open_runs _ _ _ _ _ Hprov Hpath). cbv zeta.
  now rewrite Hdev, Hctor.
Qed.

(** C5, as the code has it.  An addressCount the safe-integer validator
    refuses makes the constructor throw, and open, which calls the
    constructor inside its try block, catches that exception with the rest:
    once the device has answered the export request, open resolves to
    undefined instead of rejecting. *)
Theorem C5_open_swallows_validation_error :
  forall addressCount provider providerMode pathArray (w : World) response e,
    TrezorWallet.awaited_provider provider = Return providerMode ->
    toPathArray (derivationPathSerializer
                   (TrezorWallet.coinType_of providerMode) None)
      = Return pathArray ->
    device (requests w) (TrezorWallet.open_payload pathArray) = Return response ->
    safeIntegerValidator (with_default (VNum 10) addressCount) = Throw e ->
    TrezorWallet.constructor (get "publicKey" response) (get "chainCode" response)
      (TrezorWallet.coinType_of providerMode) addressCount providerMode = Throw e /\
    fst (TrezorWallet.open addressCount provider w) = Return None.
Proof.
  intros addressCount provider providerMode pathArray w response e
    Hprov Hpath Hdev He.
  assert (Hctor : TrezorWallet.constructor (get "publicKey" response)
            (get "chainCode" response) (TrezorWallet.coinType_of providerMode)
            addressCount providerMode = Throw e).
  { unfold TrezorWallet.constructor. now rewrite He. }
  split; [exact Hctor|].
  rewrite (open_runs _ _ _ _ _ Hprov Hpath). cbv zeta.
  now rewrite Hdev, Hctor.
Qed.

End Protocol.

(** ** The nonce encoding *)

Lemma String_repeat_zero_length (n : nat) :
  String.length (String_repeat "0" n) = n.
Proof. induction n as [|n IH]; simpl; [reflexivity | now f_equal]. Qed.

(** Rounding a length up to the next even number adds one when it is odd
    and nothing when it is even. *)
Lemma pad_amount (n : nat) :
  (Math_ceil_half n * 2 - n)%nat = if Nat.even n then 0%nat else 1%nat.
Proof.
  assert (H : forall m,
    ((Math_ceil_half m * 2 - m)%nat = if Nat.even m then 0%nat else 1%nat) /\
    ((Math_ceil_half (S m) * 2 - S m)%nat = if Nat.even (S m) then 0%nat else 1%nat)).
  { induction m as [|m [IH1 IH2]]; [split; reflexivity|].
    split; [exact IH2|].
    change (Math_ceil_half (S (S m))) with (S (Math_ceil_half m)).
    change (Nat.even (S (S m))) with (Nat.even m). rewrite <- IH1. lia. }
  apply H.
Qed.

Lemma padLeft_even_length (s : string) :
  Nat.even (String.length (padLeft (Math_ceil_half (String.length s) * 2) s)) = true.
Proof.
  unfold padLeft. rewrite pad_amount.
  destruct (Nat.even (String.length s)) eqn:E; [exact E|].
  change (String.length (String_repeat "0" 1 +:+ s)) with (S (String.length s)).
  rewrite Nat.even_succ. unfold Nat.odd. now rewrite E.
Qed.

(** A non-negative integer prints as a non-empty string of hexadecimal
    digits without sign. *)
Lemma toString16_nonneg (n : Z) :
  0 <= n ->
  exists d, d <> Hexadecimal.Nil /\ Z.to_hex_int n = Hexadecimal.Pos d /\
    toString16 n = HexadecimalString.NilEmpty.string_of_uint d.
Proof.
  intros Hn. unfold toString16. destruct n as [|p|p]; [| |lia].
  - exists (Hexadecimal.D0 Hexadecimal.Nil). repeat split. discriminate.
  - exists (Pos.to_hex_uint p).
    pose proof (HexadecimalPos.Unsigned.to_uint_nonnil p) as Hnil.
    repeat split; [exact Hnil|]. simpl.
    destruct (Pos.to_hex_uint p); [contradiction | reflexivity..].
Qed.

(** The padded numeral reads back as the nonce. *)
Lemma parseHex_padLeft (n : Z) :
  0 <= n ->
  parseHex (padLeft (Math_ceil_half (String.length (toString16 n)) * 2)
                    (toString16 n)) = Some n.
Proof.
  intros Hn. destruct (toString16_nonneg n Hn) as (d & Hnil & Hd & Hs).
  pose proof (HexadecimalZ.of_to n) as Hback. rewrite Hd in Hback.
  unfold padLeft. rewrite pad_amount.
  destruct (Nat.even _); unfold parseHex.
  - change (String_repeat "0" 0 +:+ toString16 n) with (toString16 n).
    unfold toString16.
    rewrite HexadecimalString.NilZero.isi; rewrite Hd;
      [simpl; now rewrite <- Hback | congruence | discriminate].
  - change (String_repeat "0" 1 +:+ toString16 n)
      with (String "0"%char (toString16 n)).
    rewrite Hs. cbn [HexadecimalString.NilZero.int_of_string Ascii.eqb Bool.eqb].
    cbn [HexadecimalString.NilZero.uint_of_string
         HexadecimalString.NilEmpty.uint_of_string].
    rewrite HexadecimalString.NilEmpty.usu. simpl. now rewrite <- Hback.
Qed.

(** ** sign and signTransaction *)
Section Signing.
Context `{KD : KeyDerivation} `{PC : PathCodec} `{DF : Defaults}
        `{DT : DeviceTransport}.

(** The fields signTransaction sets override the payload template. *)
Lemma signTransaction_payload_nonce (args : obj) (hexNonce : string) address_n :
  get "nonce" (TrezorWallet.signTransaction_payload args hexNonce address_n) =
  VStr (padLeft (Math_ceil_half (String.length hexNonce) * 2) hexNonce).
Proof. unfold TrezorWallet.signTransaction_payload. now rewrite get_assign2. Qed.

Lemma signTransaction_payload_chain_id (args : obj) (hexNonce : string) address_n :
  get "chain_id" (TrezorWallet.signTransaction_payload args hexNonce address_n) =
  get "chainId" args.
Proof. unfold TrezorWallet.signTransaction_payload. now rewrite get_assign2. Qed.

Lemma signTransaction_payload_address_n (args : obj) (hexNonce : string) address_n :
  get "address_n" (TrezorWallet.signTransaction_payload args hexNonce address_n) =
  VArr address_n.
Proof. unfold TrezorWallet.signTransaction_payload. now rewrite get_assign2. Qed.

Lemma sign_arguments_chainId (this : TrezorWallet.t) (tx : obj) :
  get "chainId" (TrezorWallet.sign_arguments this tx) =
  with_default (TrezorWallet.default_chainId this) (get "chainId" tx).
Proof. unfold TrezorWallet.sign_arguments. now rewrite get_assign2. Qed.

Lemma sign_arguments_path (this : TrezorWallet.t) (tx : obj) :
  get "path" (TrezorWallet.sign_arguments this tx) = VStr (TrezorWallet.path this).
Proof. unfold TrezorWallet.sign_arguments. now rewrite get_assign2. Qed.

(** A path of the caller's never gets past the merge. *)
Lemma sign_arguments_drop_path (this : TrezorWallet.t) (tx : obj) (v : value) :
  TrezorWallet.sign_arguments this (<["path" := v]> tx) =
  TrezorWallet.sign_arguments this tx.
Proof.
  unfold TrezorWallet.sign_arguments, Object_assign; simpl.
  rewrite (get_insert_other "path" "chainId") by discriminate.
  apply map_eq. intros k. rewrite !lookup_union, !lookup_empty.
  destruct (decide (k = "path")) as [->|Hk].
  - rewrite !lookup_insert_eq. simpl. now destruct (tx !! "path").
  - now rewrite (lookup_insert_ne tx "path" k) by congruence.
Qed.

(** C8, amended.  The chainId that sign hands to signTransaction (and that
    signTransaction puts in the request as chain_id) is the transaction
    object's own chainId if it has one (one that is not undefined); else the
    provider's chainId when a provider is set and that chainId is truthy
    (a number other than 0, for one); else the literal 1.  In particular an
    explicit 4 wins whatever the provider, provider.chainId = 4 is used when
    the transaction object has none, and without both the result is 1. *)
Theorem C8_chainId_precedence (this : TrezorWallet.t) (tx : obj) :
  get "chainId" (TrezorWallet.sign_arguments this tx) =
    match get "chainId" tx with
    | VUndefined =>
        match TrezorWallet.provider this with
        | Some p => if truthy (get "chainId" p) then get "chainId" p else VNum 1
        | None => VNum 1
        end
    | explicit => explicit
    end /\
  (forall hexNonce address_n,
     get "chain_id" (TrezorWallet.signTransaction_payload
                       (TrezorWallet.sign_arguments this tx) hexNonce address_n)
     = get "chainId" (TrezorWallet.sign_arguments this tx)) /\
  (get "chainId" tx = VNum 4 ->
   get "chainId" (TrezorWallet.sign_arguments this tx) = VNum 4) /\
  (forall p, get "chainId" tx = VUndefined ->
     TrezorWallet.provider this = Some p -> get "chainId" p = VNum 4 ->
     get "chainId" (TrezorWallet.sign_arguments this tx) = VNum 4) /\
  (get "chainId" tx = VUndefined -> TrezorWallet.provider this = None ->
   get "chainId" (TrezorWallet.sign_arguments this tx) = VNum 1).
Proof.
  rewrite sign_arguments_chainId. unfold TrezorWallet.default_chainId, js_or.
  split; [|split; [|split; [|split]]].
  - destruct (get "chainId" tx); try reflexivity.
    now destruct (TrezorWallet.provider this).
  - intros. now rewrite signTransaction_payload_chain_id, sign_arguments_chainId.
  - now intros ->.
  - now intros p -> -> ->.
  - now intros -> ->.
Qed.

(** C9.  For a nonce the safe-integer validator accepts, the SignTx request
    that signTransaction sends carries as nonce the hexadecimal numeral of
    that number, with one zero put in front when its length is odd and none
    otherwise: a string of even length that reads back as the nonce.  The
    nonce 3 goes out as 03 and the nonce 300 as 012c. *)
Theorem C9_nonce_even_length_hex
    (args : obj) (n c : Z) (address_n : list Z) (w : World) :
  get "nonce" args = VNum n ->
  0 <= n <= MAX_SAFE_INTEGER ->
  derivationPath_accepts (get "path" args) = true ->
  safeIntegerValidator (get "chainId" args) = Return c ->
  toPathArray (derivationPathNormalizer (get "path" args)) = Return address_n ->
  exists payload hex,
    requests (snd (TrezorWallet.signTransaction args w)) = (requests w ++ [payload])%list /\
    get "nonce" payload = VStr hex /\
    (exists k, (k <= 1)%nat /\ hex = String_repeat "0" k +:+ toString16 n) /\
    Nat.even (String.length hex) = true /\
    parseHex hex = Some n /\
    (n = 3 -> hex = "03") /\
    (n = 300 -> hex = "012c").
Proof.
  intros Hnonce Hn Hp Hc Ha.
  assert (Hv : safeIntegerValidator (with_default (VNum 0) (get "nonce" args))
               = Return n).
  { rewrite Hnonce. cbn [with_default]. now apply safeIntegerValidator_accepts. }
  exists (TrezorWallet.signTransaction_payload args (toString16 n) address_n),
         (padLeft (Math_ceil_half (String.length (toString16 n)) * 2) (toString16 n)).
  split; [|split; [|split; [|split; [|split; [|split]]]]].
  - rewrite (signTransaction_runs _ _ _ _ _ Hp Hv Hc Ha). cbv zeta.
    now destruct (device _ _).
  - apply signTransaction_payload_nonce.
  - unfold padLeft. rewrite pad_amount.
    destruct (Nat.even _); [exists 0%nat | exists 1%nat]; split; auto.
  - apply padLeft_even_length.
  - apply parseHex_padLeft. lia.
  - now intros ->.
  - now intros ->.
Qed.

Lemma sign_arguments_nonce (this : TrezorWallet.t) (tx : obj) :
  get "nonce" (TrezorWallet.sign_arguments this tx) = get "nonce" tx.
Proof. unfold TrezorWallet.sign_arguments. now rewrite get_assign2. Qed.

(** C10.  Whatever the transaction object holds, a path of its own
    included, the path that sign hands to signTransaction is the wallet's
    current default path: the caller's path is dropped in the merge, sign
    does the same with it as without it, and the address_n of the request
    that goes out is the array form of the default path. *)
Theorem C10_sign_uses_default_path (this : TrezorWallet.t) (tx : obj) :
  get "path" (TrezorWallet.sign_arguments this tx)
    = VStr (TrezorWallet.path this) /\
  (forall v : value,
     get "path" (TrezorWallet.sign_arguments this (<["path" := v]> tx))
       = VStr (TrezorWallet.path this) /\
     TrezorWallet.sign this (<["path" := v]> tx) = TrezorWallet.sign this tx) /\
  (forall (v : value) n c address_n (w : World),
     derivationPath_accepts (VStr (TrezorWallet.path this)) = true ->
     safeIntegerValidator (with_default (VNum 0) (get "nonce" tx)) = Return n ->
     safeIntegerValidator (get "chainId" (TrezorWallet.sign_arguments this tx))
       = Return c ->
     toPathArray (derivationPathNormalizer (VStr (TrezorWallet.path this)))
       = Return address_n ->
     exists payload,
       requests (snd (TrezorWallet.sign this (<["path" := v]> tx) w))
         = (requests w ++ [payload])%list /\
       get "address_n" payload = VArr address_n).
Proof.
  split; [apply sign_arguments_path|]. split.
  - intros v. split; [apply sign_arguments_path|].
    unfold TrezorWallet.sign. now rewrite sign_arguments_drop_path.
  - intros v n c address_n w Hp Hn Hc Ha.
    unfold TrezorWallet.sign. rewrite sign_arguments_drop_path.
    exists (TrezorWallet.signTransaction_payload
              (TrezorWallet.sign_arguments this tx) (toString16 n) address_n).
    split; [|apply signTransaction_payload_address_n].
    rewrite (signTransaction_runs _ n c address_n).
    + cbv zeta. now destruct (device _ _).
    + now rewrite sign_arguments_path.
    + now rewrite sign_arguments_nonce.
    + exact Hc.
    + now rewrite sign_arguments_path.
Qed.

End Signing.

(** * Further properties of the class *)

(** ** The constructor: count, initial state and failures *)
Section ConstructorEdges.
Context `{KD : KeyDerivation} `{PC : PathCodec} `{DF : Defaults}.

(** Array.from stops at the first index whose callback throws. *)
Lemma Array_from_go_first_failure {A} (f : nat -> outcome A) (n start j : nat) e :
  (j < n)%nat ->
  (forall i, (i < j)%nat -> exists x, f (start + i)%nat = Return x) ->
  f (start + j)%nat = Throw e ->
  Array_from_go f start n = Throw e.
Proof.
  revert start j. induction n as [|n IH]; intros start j Hj Hbefore Hat; [lia|].
  simpl. destruct j as [|j].
  - rewrite Nat.add_0_r in Hat. now rewrite Hat.
  - destruct (Hbefore 0%nat) as [x Hx]; [lia|]. rewrite Nat.add_0_r in Hx.
    rewrite Hx. simpl. rewrite (IH (S start) j); [reflexivity | lia | |].
    + intros i Hi. destruct (Hbefore (S i)) as [y Hy]; [lia|].
      exists y. now rewrite <- Hy, Nat.add_succ_r.
    + now rewrite <- Hat, Nat.add_succ_r.
Qed.

(** X5.  An address count of 0 gives the very wallet that a count of 1
    gives, and a count left out the one that 10 gives: ten address objects
    and ten entries in otherAddresses. *)
Theorem constructor_count_zero_and_default pk cc coinType prov :
  TrezorWallet.constructor pk cc coinType (VNum 0) prov
    = TrezorWallet.constructor pk cc coinType (VNum 1) prov /\
  TrezorWallet.constructor pk cc coinType VUndefined prov
    = TrezorWallet.constructor pk cc coinType (VNum 10) prov /\
  (forall w, TrezorWallet.constructor pk cc coinType (VNum 0) prov = Return w ->
     length (TrezorWallet.allAddresses w) = 1%nat /\
     TrezorWallet.otherAddresses w = None) /\
  (forall w, TrezorWallet.constructor pk cc coinType VUndefined prov = Return w ->
     length (TrezorWallet.allAddresses w) = 10%nat /\
     exists addresses, TrezorWallet.otherAddresses w = Some addresses /\
       length addresses = 10%nat).
Proof.
  split; [|split; [reflexivity|split]].
  - unfold TrezorWallet.constructor. cbn [with_default].
    rewrite !safeIntegerValidator_accepts by (unfold MAX_SAFE_INTEGER; lia).
    reflexivity.
  - intros w Hw. destruct (constructor_length _ _ _ _ _ _ Hw) as [_ Hlen].
    split; [lia|].
    apply constructor_Return in Hw
      as (n & hdKey & records & r0 & Hn & _ & _ & _ & ->).
    cbn [with_default] in Hn.
    apply safeIntegerValidator_Return in Hn as [[= <-] _]. reflexivity.
  - intros w Hw.
    change (TrezorWallet.constructor pk cc coinType (VNum 10) prov = Return w) in Hw.
    destruct (constructor_length _ _ _ _ _ _ Hw) as [_ Hlen].
    split; [lia|].
    apply constructor_Return in Hw
      as (n & hdKey & records & r0 & Hn & _ & _ & _ & ->).
    cbn [with_default] in Hn.
    apply safeIntegerValidator_Return in Hn as [[= <-] _].
    simpl in *. eexists. split; [reflexivity|]. rewrite length_map. lia.
Qed.

(** X6.  A freshly built wallet stands on index 0: its address, public key
    and path are those of the first address object, the key being the child
    at m/0 and the path the serialized path of address index 0; its type
    tags are the hardware and trezor ones and its provider the one handed
    in. *)
Theorem constructor_starts_at_index_0 pk cc coinType addressCount prov w :
  TrezorWallet.constructor pk cc coinType addressCount prov = Return w ->
  exists hdKey r0,
    HDKey_new pk cc = Return hdKey /\
    TrezorWallet.allAddresses w !! 0%nat = Some r0 /\
    TrezorWallet.address w = AddressObject.address r0 /\
    TrezorWallet.publicKey w = AddressObject.publicKey r0 /\
    TrezorWallet.path w = AddressObject.path r0 /\
    HDKey_derive hdKey "m/0" = Return (TrezorWallet.publicKey w) /\
    publicKeyToAddress (TrezorWallet.publicKey w) = Return (TrezorWallet.address w) /\
    TrezorWallet.path w = derivationPathSerializer coinType (Some 0) /\
    TrezorWallet.type w = TYPE_HARDWARE /\
    TrezorWallet.subtype w = SUBTYPE_TREZOR /\
    TrezorWallet.provider w = prov.
Proof.
  intros Hw.
  destruct (constructor_records _ _ _ _ _ _ Hw) as (hdKey & Hk & Hrec).
  apply constructor_Return in Hw
    as (n & hdKey' & records & r0 & _ & _ & _ & Hr0 & ->).
  simpl in *. destruct (Hrec 0%nat) as (r & Hr & Hd & Ha & Hp).
  { apply lookup_lt_Some in Hr0. exact Hr0. }
  assert (r = r0) as -> by congruence.
  exists hdKey, r0. repeat split; auto.
Qed.

(** X7.  A count that the safe-integer validator lets through but that no
    array can have (above 2^32 - 1) ends in a RangeError, once the key
    library has taken the root key. *)
Theorem constructor_count_beyond_array_length pk cc coinType (count : Z) prov hdKey :
  MAX_ARRAY_LENGTH < count <= MAX_SAFE_INTEGER ->
  HDKey_new pk cc = Return hdKey ->
  TrezorWallet.constructor pk cc coinType (VNum count) prov =
  Throw (JsError RangeError "Invalid array length").
Proof.
  intros Hcount Hk. unfold TrezorWallet.constructor. cbn [with_default].
  rewrite safeIntegerValidator_accepts by (unfold MAX_ARRAY_LENGTH in *; lia).
  simpl. rewrite Hk. simpl. unfold Array_from.
  destruct (Z.eqb_spec count 0) as [->|_];
    [unfold MAX_ARRAY_LENGTH in *; lia|].
  assert (Z.leb count MAX_ARRAY_LENGTH = false) as -> by (apply Z.leb_gt; lia).
  now rewrite andb_false_r.
Qed.

(** X8.  No wallet is built on a partial derivation: when the children
    below index j derive and the one at j does not (the derivation or the
    address computation throws), the constructor throws that error. *)
Theorem constructor_stops_at_first_failed_derivation
    pk cc coinType (count : Z) prov hdKey (j : nat) e :
  0 <= count <= MAX_ARRAY_LENGTH ->
  HDKey_new pk cc = Return hdKey ->
  Z.of_nat j < Z.max count 1 ->
  (forall i : nat, (i < j)%nat ->
     exists k a, HDKey_derive hdKey ("m/" +:+ String_of_nat i) = Return k /\
                 publicKeyToAddress k = Return a) ->
  (HDKey_derive hdKey ("m/" +:+ String_of_nat j) = Throw e \/
   exists k, HDKey_derive hdKey ("m/" +:+ String_of_nat j) = Return k /\
             publicKeyToAddress k = Throw e) ->
  TrezorWallet.constructor pk cc coinType (VNum count) prov = Throw e.
Proof.
  intros Hcount Hk Hj Hbefore Hat.
  unfold TrezorWallet.constructor. cbn [with_default].
  rewrite safeIntegerValidator_accepts
    by (unfold MAX_ARRAY_LENGTH, MAX_SAFE_INTEGER in *; lia).
  simpl. rewrite Hk. simpl.
  set (len := if Z.eqb count 0 then 1 else count).
  assert (Hlen : len = Z.max count 1)
    by (subst len; destruct (Z.eqb_spec count 0); lia).
  unfold Array_from.
  assert (Z.leb 0 len && Z.leb len MAX_ARRAY_LENGTH = true) as ->.
  { apply andb_true_intro. split; apply Z.leb_le;
      unfold MAX_ARRAY_LENGTH in *; lia. }
  rewrite (Array_from_go_first_failure _ _ 0 j e); [reflexivity | lia | |].
  - intros i Hi. destruct (Hbefore i Hi) as (k & a & Hk' & Ha).
    unfold TrezorWallet.deriveAddress. simpl. rewrite Hk'. simpl. rewrite Ha.
    simpl. eauto.
  - unfold TrezorWallet.deriveAddress. simpl.
    destruct Hat as [Hd | (k & Hd & Ha)]; rewrite Hd; simpl;
      [reflexivity | now rewrite Ha].
Qed.

End ConstructorEdges.

(** ** setDefaultAddress: frame, composition, and what the other methods
    make of it *)
Section DefaultAddressUse.
Context `{KD : KeyDerivation} `{PC : PathCodec} `{DF : Defaults}
        `{DT : DeviceTransport}.

(** X9.  Whatever it is given, setDefaultAddress switches the whole default
    triple or nothing: unless it returns true the wallet is exactly as it
    was, and when it returns true the three fields are those of one and the
    same address object; the array of address objects, otherAddresses, the
    provider and the type tags are never written. *)
Theorem setDefaultAddress_all_or_nothing (addressIndex : value) (w : TrezorWallet.t) :
  let result := fst (TrezorWallet.setDefaultAddress addressIndex w) in
  let w' := snd (TrezorWallet.setDefaultAddress addressIndex w) in
  TrezorWallet.allAddresses w' = TrezorWallet.allAddresses w /\
  TrezorWallet.otherAddresses w' = TrezorWallet.otherAddresses w /\
  TrezorWallet.provider w' = TrezorWallet.provider w /\
  TrezorWallet.type w' = TrezorWallet.type w /\
  TrezorWallet.subtype w' = TrezorWallet.subtype w /\
  (result <> Return true -> w' = w) /\
  (result = Return true ->
   exists r, In r (TrezorWallet.allAddresses w) /\
     TrezorWallet.address w' = AddressObject.address r /\
     TrezorWallet.publicKey w' = AddressObject.publicKey r /\
     TrezorWallet.path w' = AddressObject.path r).
Proof.
  cbv zeta. unfold TrezorWallet.setDefaultAddress, bind, lift, gets.
  destruct (safeIntegerValidator _) as [i|e] eqn:Hi; simpl;
    [|repeat split; auto; discriminate].
  destruct (Z.leb 0 i && Z.leb i _) eqn:Hrange; simpl;
    [|repeat split; auto; discriminate].
  unfold member, index. destruct (Z.leb 0 i); simpl;
    [|repeat split; auto; discriminate].
  destruct (TrezorWallet.allAddresses w !! Z.to_nat i) as [r|] eqn:Hr; simpl;
    [|repeat split; auto; discriminate].
  repeat split; auto; [congruence|].
  intros _. exists r. split; [|auto].
  apply list_elem_of_In. eapply list_elem_of_lookup_2. exact Hr.
Qed.

(** X10.  Successive calls do not build on each other: switching to index j
    after index i leaves the wallet where switching to j alone does, and
    calling setDefaultAddress without argument after any switch brings the
    wallet back to the state the constructor left it in. *)
Theorem setDefaultAddress_last_call_wins
    pk cc coinType (count : Z) prov (w : TrezorWallet.t) (i j : Z) :
  TrezorWallet.constructor pk cc coinType (VNum count) prov = Return w ->
  0 <= i < Z.max count 1 ->
  0 <= j < Z.max count 1 ->
  let w_i := snd (TrezorWallet.setDefaultAddress (VNum i) w) in
  TrezorWallet.setDefaultAddress (VNum j) w_i
    = TrezorWallet.setDefaultAddress (VNum j) w /\
  TrezorWallet.setDefaultAddress VUndefined w_i = (Return true, w).
Proof.
  intros Hw Hi Hj. cbv zeta.
  destruct (constructor_length _ _ _ _ _ _ Hw) as [[_ Hmax] Hlen].
  assert (Hsafe : forall k, 0 <= k < Z.max count 1 -> 0 <= k <= MAX_SAFE_INTEGER)
    by (unfold MAX_ARRAY_LENGTH, MAX_SAFE_INTEGER in *; lia).
  destruct (lookup_lt_is_Some_2 (TrezorWallet.allAddresses w) (Z.to_nat i))
    as [ri Hri]; [lia|].
  destruct (lookup_lt_is_Some_2 (TrezorWallet.allAddresses w) (Z.to_nat j))
    as [rj Hrj]; [lia|].
  rewrite (setDefaultAddress_hit w i ri (Hsafe i Hi) Hri). cbn [snd]. split.
  - rewrite (setDefaultAddress_hit w j rj (Hsafe j Hj) Hrj).
    erewrite setDefaultAddress_hit; [reflexivity | exact (Hsafe j Hj) | exact Hrj].
  - apply constructor_Return in Hw
      as (n & hdKey & records & r0 & _ & _ & _ & Hr0 & ->).
    cbn [TrezorWallet.allAddresses TrezorWallet.type TrezorWallet.subtype
         TrezorWallet.provider TrezorWallet.otherAddresses] in *.
    change (TrezorWallet.setDefaultAddress VUndefined)
      with (TrezorWallet.setDefaultAddress (VNum 0)).
    erewrite setDefaultAddress_hit;
      [reflexivity | unfold MAX_SAFE_INTEGER; lia | exact Hr0].
Qed.

(** X11.  After a switch to index i the other instance methods work with
    address object i: sign hands signTransaction the serialized path of
    address index i, signMessage signs with that path, and verifyMessage,
    given no address, verifies against the address derived at m/i. *)
Theorem setDefaultAddress_redirects_methods
    pk cc coinType (count : Z) prov (w : TrezorWallet.t) (i : nat) :
  TrezorWallet.constructor pk cc coinType (VNum count) prov = Return w ->
  Z.of_nat i < Z.max count 1 ->
  let w_i := snd (TrezorWallet.setDefaultAddress (VNum (Z.of_nat i)) w) in
  exists r,
    TrezorWallet.allAddresses w !! i = Some r /\
    (forall tx : obj,
       get "path" (TrezorWallet.sign_arguments w_i tx)
         = VStr (derivationPathSerializer coinType (Some (Z.of_nat i)))) /\
    (forall (args : obj) (world : World),
       TrezorWallet.wallet_signMessage w_i args world =
       TrezorWallet.signMessage
         {[ "path" := VStr (derivationPathSerializer coinType (Some (Z.of_nat i)));
            "message" := get "message" args ]} world) /\
    (forall (args : obj) (world : World),
       get "address" args = VUndefined ->
       TrezorWallet.wallet_verifyMessage w_i args world =
       TrezorWallet.verifyMessage
         {[ "address" := VStr (AddressObject.address r);
            "message" := get "message" args;
            "signature" := get "signature" args ]} world).
Proof.
  intros Hw Hi. cbv zeta.
  destruct (constructor_length _ _ _ _ _ _ Hw) as [[_ Hmax] Hlen].
  destruct (constructor_records _ _ _ _ _ _ Hw) as (hdKey & _ & Hrec).
  destruct (Hrec i) as (r & Hr & _ & _ & Hp); [lia|].
  exists r. split; [exact Hr|].
  rewrite (setDefaultAddress_hit w (Z.of_nat i) r);
    [| unfold MAX_ARRAY_LENGTH, MAX_SAFE_INTEGER in *; lia
     | now rewrite Nat2Z.id].
  simpl. split; [|split].
  - intros tx. now rewrite sign_arguments_path, <- Hp.
  - intros args world. unfold TrezorWallet.wallet_signMessage. simpl.
    now rewrite Hp.
  - intros args world Haddr. unfold TrezorWallet.wallet_verifyMessage. simpl.
    now rewrite Haddr.
Qed.

End DefaultAddressUse.

(** ** What goes to the device *)
Section Requests.
Context `{KD : KeyDerivation} `{PC : PathCodec} `{DF : Defaults}
        `{DT : DeviceTransport}.

(** Looking up, in a literal object, a key it does not have. *)
Ltac absent_key Hk :=
  repeat (rewrite lookup_insert_ne
            by (intros Heq; apply Hk; rewrite <- Heq; simpl; tauto));
  rewrite ?lookup_singleton_ne
    by (intros Heq; apply Hk; rewrite <- Heq; simpl; tauto).

(** The signing payload reads six properties of its argument and no
    other. *)
Lemma signTransaction_payload_frame (args : obj) (k : string) (v : value)
    (hexNonce : string) (address_n : list Z) :
  ~ In k ["gasPrice"; "gasLimit"; "chainId"; "to"; "value"; "data"] ->
  TrezorWallet.signTransaction_payload (<[k := v]> args) hexNonce address_n
  = TrezorWallet.signTransaction_payload args hexNonce address_n.
Proof.
  intros Hk. unfold TrezorWallet.signTransaction_payload.
  rewrite !(get_insert_other k)
    by (intros Heq; apply Hk; rewrite Heq; simpl; tauto).
  reflexivity.
Qed.

Lemma signTransaction_payload_fields
    (args : obj) (hexNonce : string) (address_n : list Z) :
  let payload := TrezorWallet.signTransaction_payload args hexNonce address_n in
  get "address_n" payload = VArr address_n /\
  get "gas_price" payload = get "gasPrice" args /\
  get "gas_limit" payload = get "gasLimit" args /\
  get "chain_id" payload = get "chainId" args /\
  get "to" payload = get "to" args /\
  get "value" payload = get "value" args /\
  get "data" payload = get "data" args.
Proof.
  cbv zeta. unfold TrezorWallet.signTransaction_payload.
  rewrite !get_assign2. repeat split.
Qed.

(** sign passes every property of the transaction object on, but for path
    and chainId. *)
Lemma sign_arguments_other (this : TrezorWallet.t) (tx : obj) (k : string) :
  k <> "path" -> k <> "chainId" ->
  get k (TrezorWallet.sign_arguments this tx) = get k tx.
Proof.
  intros Hp Hc. unfold TrezorWallet.sign_arguments. rewrite get_assign2.
  rewrite lookup_insert_ne by congruence.
  now rewrite lookup_singleton_ne by congruence.
Qed.

(** X12.  The SignTx request that signTransaction sends, once its checks
    have passed, is the payload template with eight properties set over it:
    address_n (the array form of the normalized path), nonce (the padded
    hex numeral of the nonce) and gasPrice, gasLimit, chainId, to, value and
    data under their wire names; every other property of the template
    stays.  The call reads path, gasPrice, gasLimit, chainId, nonce, to,
    value and data of its argument and nothing else: any other property
    put into the transaction object leaves the whole call as it was. *)
Theorem signTransaction_request_shape
    (args : obj) (n c : Z) (address_n : list Z) (w : World) :
  derivationPath_accepts (get "path" args) = true ->
  safeIntegerValidator (with_default (VNum 0) (get "nonce" args)) = Return n ->
  safeIntegerValidator (get "chainId" args) = Return c ->
  toPathArray (derivationPathNormalizer (get "path" args)) = Return address_n ->
  (exists payload,
     requests (snd (TrezorWallet.signTransaction args w))
       = (requests w ++ [payload])%list /\
     get "address_n" payload = VArr address_n /\
     get "nonce" payload
       = VStr (padLeft (Math_ceil_half (String.length (toString16 n)) * 2)
                       (toString16 n)) /\
     get "gas_price" payload = get "gasPrice" args /\
     get "gas_limit" payload = get "gasLimit" args /\
     get "chain_id" payload = VNum c /\
     get "to" payload = get "to" args /\
     get "value" payload = get "value" args /\
     get "data" payload = get "data" args /\
     (forall k : string,
        ~ In k ["address_n"; "gas_price"; "gas_limit"; "chain_id"; "nonce";
                "to"; "value"; "data"] ->
        get k payload = get k PAYLOAD_SIGNTX)) /\
  (forall (k : string) (v : value),
     ~ In k ["path"; "gasPrice"; "gasLimit"; "chainId"; "nonce";
             "to"; "value"; "data"] ->
     TrezorWallet.signTransaction (<[k := v]> args) w
     = TrezorWallet.signTransaction args w).
Proof.
  intros Hp Hn Hc Ha. split.
  - exists (TrezorWallet.signTransaction_payload args (toString16 n) address_n).
    destruct (signTransaction_payload_fields args (toString16 n) address_n)
      as (Haddr & Hgp & Hgl & Hci & Hto & Hval & Hdata).
    split; [|split; [exact Haddr|split; [apply signTransaction_payload_nonce|]]].
    + rewrite (signTransaction_runs _ _ _ _ _ Hp Hn Hc Ha). cbv zeta.
      now destruct (device _ _).
    + apply safeIntegerValidator_Return in Hc as [Hc _].
      rewrite Hci, Hc. repeat split; auto.
      intros k Hk. unfold TrezorWallet.signTransaction_payload.
      rewrite get_assign2. absent_key Hk. reflexivity.
  - intros k v Hk. unfold TrezorWallet.signTransaction.
    rewrite !(get_insert_other k)
      by (intros Heq; apply Hk; rewrite Heq; simpl; tauto).
    cbv zeta. unfold bind, lift.
    destruct (derivationPathValidator _); [|reflexivity].
    destruct (safeIntegerValidator _); [|reflexivity].
    destruct (safeIntegerValidator _); [|reflexivity].
    destruct (toPathArray _); [|reflexivity].
    now rewrite signTransaction_payload_frame by (simpl in *; tauto).
Qed.

(** X13.  A transaction object without nonce is signed as one with nonce 0:
    the two calls are the same in every respect, and the nonce that goes
    out is 00. *)
Theorem signTransaction_nonce_defaults_to_0 (args : obj) (w : World) :
  get "nonce" args = VUndefined ->
  TrezorWallet.signTransaction args w
    = TrezorWallet.signTransaction (<["nonce" := VNum 0]> args) w /\
  (forall c address_n,
     derivationPath_accepts (get "path" args) = true ->
     safeIntegerValidator (get "chainId" args) = Return c ->
     toPathArray (derivationPathNormalizer (get "path" args)) = Return address_n ->
     exists payload,
       requests (snd (TrezorWallet.signTransaction args w))
         = (requests w ++ [payload])%list /\
       get "nonce" payload = VStr "00").
Proof.
  intros Hnonce. split.
  - unfold TrezorWallet.signTransaction.
    rewrite get_insert_same, Hnonce.
    rewrite !(get_insert_other "nonce") by discriminate.
    cbv zeta. cbn [with_default].
    unfold bind, lift.
    destruct (derivationPathValidator _); [|reflexivity].
    destruct (safeIntegerValidator (VNum 0)); [|reflexivity].
    destruct (safeIntegerValidator _); [|reflexivity].
    destruct (toPathArray _); [|reflexivity].
    now rewrite signTransaction_payload_frame by (simpl; intuition discriminate).
  - intros c address_n Hp Hc Ha.
    assert (Hn : safeIntegerValidator (with_default (VNum 0) (get "nonce" args))
                 = Return 0).
    { rewrite Hnonce. cbn [with_default].
      apply safeIntegerValidator_accepts. unfold MAX_SAFE_INTEGER. lia. }
    exists (TrezorWallet.signTransaction_payload args (toString16 0) address_n).
    split; [|now rewrite signTransaction_payload_nonce].
    rewrite (signTransaction_runs _ _ _ _ _ Hp Hn Hc Ha). cbv zeta.
    now destruct (device _ _).
Qed.

(** X14.  sign from end to end: when the wallet's default path, the nonce
    and the resolved chain id pass their checks and the device signs, sign
    returns the device's answer as it came, prints nothing, and has sent one
    request, which carries the default path in array form, the resolved
    chain id, the padded hex nonce and the transaction's to, value, data,
    gasPrice and gasLimit. *)
Theorem sign_resolves_to_device_answer
    (this : TrezorWallet.t) (tx : obj) (n c : Z) (address_n : list Z)
    (w : World) (signedTransaction : obj) :
  derivationPath_accepts (VStr (TrezorWallet.path this)) = true ->
  safeIntegerValidator (with_default (VNum 0) (get "nonce" tx)) = Return n ->
  safeIntegerValidator (get "chainId" (TrezorWallet.sign_arguments this tx))
    = Return c ->
  toPathArray (derivationPathNormalizer (VStr (TrezorWallet.path this)))
    = Return address_n ->
  device (requests w)
    (TrezorWallet.signTransaction_payload (TrezorWallet.sign_arguments this tx)
       (toString16 n) address_n) = Return signedTransaction ->
  exists payload,
    TrezorWallet.sign this tx w =
      (Return (Some signedTransaction),
       mkWorld (warnings w) (requests w ++ [payload])) /\
    get "address_n" payload = VArr address_n /\
    get "chain_id" payload = VNum c /\
    get "nonce" payload
      = VStr (padLeft (Math_ceil_half (String.length (toString16 n)) * 2)
                      (toString16 n)) /\
    get "to" payload = get "to" tx /\
    get "value" payload = get "value" tx /\
    get "data" payload = get "data" tx /\
    get "gas_price" payload = get "gasPrice" tx /\
    get "gas_limit" payload = get "gasLimit" tx.
Proof.
  intros Hp Hn Hc Ha Hdev.
  exists (TrezorWallet.signTransaction_payload
            (TrezorWallet.sign_arguments this tx) (toString16 n) address_n).
  split.
  - unfold TrezorWallet.sign.
    rewrite (signTransaction_runs _ n c address_n).
    + cbv zeta. now rewrite Hdev.
    + now rewrite sign_arguments_path.
    + now rewrite sign_arguments_nonce.
    + exact Hc.
    + now rewrite sign_arguments_path.
  - apply safeIntegerValidator_Return in Hc as [Hc _].
    destruct (signTransaction_payload_fields
                (TrezorWallet.sign_arguments this tx) (toString16 n) address_n)
      as (Haddr & Hgp & Hgl & Hci & Hto & Hval & Hdata).
    rewrite Haddr, Hgp, Hgl, Hci, Hto, Hval, Hdata, Hc.
    rewrite signTransaction_payload_nonce.
    rewrite !sign_arguments_other by discriminate.
    repeat split.
Qed.

End Requests.

(** ** Messages *)

Lemma substring_whole (s : string) : substring 0 (String.length s) s = s.
Proof. induction s as [|c s IH]; simpl; [reflexivity | now rewrite IH]. Qed.

(** An address that starts with 0x loses exactly those two characters. *)
Lemma stripPrefix_0x (rest : string) :
  TrezorWallet.stripPrefix ("0x" +:+ rest) = rest.
Proof.
  change ("0x" +:+ rest) with (String "0"%char (String "x"%char rest)).
  unfold TrezorWallet.stripPrefix.
  assert (Hhead : substring 0 2 (String "0"%char (String "x"%char rest)) = "0x")
    by (simpl; now destruct rest).
  rewrite Hhead. simpl. rewrite Nat.sub_0_r. apply substring_whole.
Qed.

Section Messages.
Context `{KD : KeyDerivation} `{PC : PathCodec} `{DF : Defaults}
        `{DT : DeviceTransport}.

(** X15.  verifyMessage sends the validated address without its 0x prefix
    (and as it is when it has none), together with the message and the
    signature it was given, and returns the success flag of the device's
    answer. *)
Theorem verifyMessage_strips_0x (args : obj) (validatedAddress : string) (w : World) :
  validateAddress (get "address" args) = Return validatedAddress ->
  exists payload,
    requests (snd (TrezorWallet.verifyMessage args w))
      = (requests w ++ [payload])%list /\
    (forall rest, validatedAddress = "0x" +:+ rest ->
       get "address" payload = VStr rest) /\
    (substring 0 2 validatedAddress <> "0x" ->
       get "address" payload = VStr validatedAddress) /\
    get "message" payload = get "message" args /\
    get "signature" payload = get "signature" args /\
    (forall response,
       device (requests w) payload = Return response ->
       fst (TrezorWallet.verifyMessage args w) = Return (get "success" response)).
Proof.
  intros Hv.
  exists (TrezorWallet.verifyMessage_payload args validatedAddress).
  rewrite (verifyMessage_runs _ _ _ Hv). cbv zeta. cbn [fst snd requests].
  unfold TrezorWallet.verifyMessage_payload. rewrite !get_assign2.
  split; [reflexivity|]. split; [|split; [|split; [|split]]].
  - intros rest ->. simpl. now rewrite stripPrefix_0x.
  - intros Hno. simpl. unfold TrezorWallet.stripPrefix.
    apply String.eqb_neq in Hno. now rewrite Hno.
  - reflexivity.
  - reflexivity.
  - intros response Hdev. now rewrite Hdev.
Qed.

(** X16.  signMessage sends the array form of the normalized path and the
    message over the payload template, whose other properties stay, and
    returns the signature of the device's answer; it never prints. *)
Theorem signMessage_request_and_result (args : obj) (pathArray : list Z) (w : World) :
  derivationPath_accepts (get "path" args) = true ->
  toPathArray (derivationPathNormalizer (get "path" args)) = Return pathArray ->
  exists payload,
    snd (TrezorWallet.signMessage args w)
      = mkWorld (warnings w) (requests w ++ [payload]) /\
    get "path" payload = VArr pathArray /\
    get "message" payload = get "message" args /\
    (forall k : string, ~ In k ["path"; "message"] ->
       get k payload = get k PAYLOAD_SIGNMSG) /\
    (forall response,
       device (requests w) payload = Return response ->
       fst (TrezorWallet.signMessage args w) = Return (get "signature" response)).
Proof.
  intros Hp Ha.
  exists (TrezorWallet.signMessage_payload pathArray (get "message" args)).
  rewrite (signMessage_runs _ _ _ Hp Ha). cbv zeta. cbn [fst snd].
  unfold TrezorWallet.signMessage_payload.
  split; [reflexivity|]. split; [now rewrite get_assign2|].
  split; [now rewrite get_assign2|]. split.
  - intros k Hk. rewrite get_assign2.
    rewrite lookup_insert_ne
      by (intros Heq; apply Hk; rewrite <- Heq; simpl; tauto).
    now rewrite lookup_singleton_ne
      by (intros Heq; apply Hk; rewrite <- Heq; simpl; tauto).
  - intros response Hdev. now rewrite Hdev.
Qed.

(** X17.  The wallet's own message methods read nothing of their argument
    but the message (signMessage) and the address, message and signature
    (verifyMessage): a path or any other property put into the argument
    changes nothing, and an address given to verifyMessage takes the place
    of the wallet's default address. *)
Theorem wallet_message_methods_arguments (this : TrezorWallet.t) (args : obj) :
  (forall (k : string) (v : value), k <> "message" ->
     TrezorWallet.wallet_signMessage this (<[k := v]> args)
     = TrezorWallet.wallet_signMessage this args) /\
  (forall (k : string) (v : value),
     ~ In k ["address"; "message"; "signature"] ->
     TrezorWallet.wallet_verifyMessage this (<[k := v]> args)
     = TrezorWallet.wallet_verifyMessage this args) /\
  (forall address : string,
     TrezorWallet.wallet_verifyMessage this (<["address" := VStr address]> args)
     = TrezorWallet.verifyMessage
         {[ "address" := VStr address;
            "message" := get "message" args;
            "signature" := get "signature" args ]}) /\
  (get "address" args = VUndefined ->
   TrezorWallet.wallet_verifyMessage this args
   = TrezorWallet.verifyMessage
       {[ "address" := VStr (TrezorWallet.address this);
          "message" := get "message" args;
          "signature" := get "signature" args ]}).
Proof.
  split; [|split; [|split]].
  - intros k v Hk. unfold TrezorWallet.wallet_signMessage.
    now rewrite get_insert_other.
  - intros k v Hk. unfold TrezorWallet.wallet_verifyMessage.
    now rewrite !(get_insert_other k)
      by (intros Heq; apply Hk; rewrite Heq; simpl; tauto).
  - intros address. unfold TrezorWallet.wallet_verifyMessage.
    rewrite get_insert_same.
    now rewrite !(get_insert_other "address") by discriminate.
  - intros Haddr. unfold TrezorWallet.wallet_verifyMessage. now rewrite Haddr.
Qed.

End Messages.

(** ** open, and the traffic with the device *)
Section Opening.
Context `{KD : KeyDerivation} `{PC : PathCodec} `{DF : Defaults}
        `{DT : DeviceTransport} `{PR : Providers}.

(** X18.  The wallet that open resolves to is built for one coin type, the
    one the export request was made for: the main-network one when there is
    no provider, or a provider that is not flagged testnet and is named as
    the main network; the testnet one for every other provider, one without
    a name included.  The wallet keeps the awaited provider, and every
    address object's path is serialized with that coin type. *)
Theorem open_coin_type_follows_provider
    addressCount provider (providerMode : option obj) (pathArray : list Z)
    (w w' : World) (wallet : TrezorWallet.t) :
  TrezorWallet.awaited_provider provider = Return providerMode ->
  toPathArray (derivationPathSerializer
                 (TrezorWallet.coinType_of providerMode) None) = Return pathArray ->
  TrezorWallet.open addressCount provider w = (Return (Some wallet), w') ->
  let coinType := TrezorWallet.coinType_of providerMode in
  TrezorWallet.provider wallet = providerMode /\
  requests w' = (requests w ++ [TrezorWallet.open_payload pathArray])%list /\
  get "path" (TrezorWallet.open_payload pathArray) = VArr pathArray /\
  (forall (i : nat) r, TrezorWallet.allAddresses wallet !! i = Some r ->
     AddressObject.path r = derivationPathSerializer coinType (Some (Z.of_nat i))) /\
  (providerMode = None -> coinType = COIN_MAINNET) /\
  (forall p, providerMode = Some p ->
     truthy (get "testnet" p) = false -> get "name" p = VStr MAIN_NETWORK ->
     coinType = COIN_MAINNET) /\
  (forall p, providerMode = Some p ->
     truthy (get "testnet" p) = true \/ get "name" p <> VStr MAIN_NETWORK ->
     coinType = COIN_TESTNET).
Proof.
  intros Hprov Hpath Hopen. cbv zeta.
  rewrite (open_runs _ _ _ _ _ Hprov Hpath) in Hopen. cbv zeta in Hopen.
  destruct (device _ _) as [response|e]; [|discriminate].
  destruct (TrezorWallet.constructor _ _ _ _ _) as [walletInstance|e] eqn:Hctor;
    [|discriminate].
  injection Hopen as <- <-.
  destruct (constructor_records _ _ _ _ _ _ Hctor) as (hdKey & _ & Hrec).
  split; [|split; [reflexivity|split; [|split; [|split; [|split]]]]].
  - apply constructor_Return in Hctor
      as (n & hdKey' & records & r0 & _ & _ & _ & _ & ->).
    reflexivity.
  - unfold TrezorWallet.open_payload. now rewrite get_assign2.
  - intros i r Hr. destruct (Hrec i) as (r' & Hr' & _ & _ & Hp).
    { apply lookup_lt_Some in Hr. exact Hr. }
    congruence.
  - now intros ->.
  - intros p -> Htest Hname. unfold TrezorWallet.coinType_of.
    rewrite Htest, Hname. now rewrite bool_decide_eq_true_2.
  - intros p -> [Htest|Hname]; unfold TrezorWallet.coinType_of.
    + now rewrite Htest.
    + rewrite (bool_decide_eq_false_2 _ Hname). simpl. now rewrite orb_true_r.
Qed.

(** X19.  What fails before the request is made is not caught: a provider
    generator that rejects makes open reject with its error, with nothing
    printed and nothing sent, and so does a path that does not convert,
    after the no-provider warning where it applies. *)
Theorem open_rejects_before_the_request addressCount provider (w : World) e :
  (TrezorWallet.awaited_provider provider = Throw e ->
   TrezorWallet.open addressCount provider w = (Throw e, w)) /\
  (forall providerMode,
     TrezorWallet.awaited_provider provider = Return providerMode ->
     toPathArray (derivationPathSerializer
                    (TrezorWallet.coinType_of providerMode) None) = Throw e ->
     TrezorWallet.open addressCount provider w =
     (Throw e,
      mkWorld (warnings w ++ TrezorWallet.provider_warnings provider)%list
              (requests w))).
Proof.
  split.
  - intros Hprov. unfold TrezorWallet.open, bind, lift.
    destruct provider; simpl in Hprov; try discriminate; now rewrite Hprov.
  - intros providerMode Hprov Hpath.
    unfold TrezorWallet.open, bind, lift, ret, warning, modify.
    destruct provider; simpl in Hprov;
      try rewrite Hprov; try injection Hprov as <-;
      cbn -[TrezorWallet.coinType_of]; rewrite Hpath;
      rewrite ?app_nil_r; now destruct w.
Qed.

(** A check that throws before the round trip leaves the world as it was:
    nothing is sent and nothing is printed. *)
Lemma nothing_sent_when_a_check_throws (args : obj) (w : World) :
  (forall e, validateAddress (get "address" args) = Throw e ->
     TrezorWallet.verifyMessage args w = (Throw e, w)) /\
  (derivationPath_accepts (get "path" args) = false ->
     TrezorWallet.signMessage args w
       = (Throw (JsError InputValidationError derivationPathNotValid), w) /\
     TrezorWallet.signTransaction args w
       = (Throw (JsError InputValidationError derivationPathNotValid), w)) /\
  (forall e, derivationPath_accepts (get "path" args) = true ->
     toPathArray (derivationPathNormalizer (get "path" args)) = Throw e ->
     TrezorWallet.signMessage args w = (Throw e, w)) /\
  (forall e, derivationPath_accepts (get "path" args) = true ->
     safeIntegerValidator (with_default (VNum 0) (get "nonce" args)) = Throw e ->
     TrezorWallet.signTransaction args w = (Throw e, w)) /\
  (forall n e, derivationPath_accepts (get "path" args) = true ->
     safeIntegerValidator (with_default (VNum 0) (get "nonce" args)) = Return n ->
     safeIntegerValidator (get "chainId" args) = Throw e ->
     TrezorWallet.signTransaction args w = (Throw e, w)) /\
  (forall n c e, derivationPath_accepts (get "path" args) = true ->
     safeIntegerValidator (with_default (VNum 0) (get "nonce" args)) = Return n ->
     safeIntegerValidator (get "chainId" args) = Return c ->
     toPathArray (derivationPathNormalizer (get "path" args)) = Throw e ->
     TrezorWallet.signTransaction args w = (Throw e, w)).
Proof.
  split; [|split; [|split; [|split; [|split]]]].
  - intros e Hv. unfold TrezorWallet.verifyMessage, bind, lift. now rewrite Hv.
  - intros Hp. split.
    + unfold TrezorWallet.signMessage, derivationPathValidator, bind, lift.
      now rewrite Hp.
    + unfold TrezorWallet.signTransaction, derivationPathValidator, bind, lift.
      now rewrite Hp.
  - intros e Hp Ha.
    unfold TrezorWallet.signMessage, derivationPathValidator, bind, lift.
    now rewrite Hp, Ha.
  - intros e Hp Hn.
    unfold TrezorWallet.signTransaction, derivationPathValidator, bind, lift.
    now rewrite Hp, Hn.
  - intros n e Hp Hn Hc.
    unfold TrezorWallet.signTransaction, derivationPathValidator, bind, lift.
    now rewrite Hp, Hn, Hc.
  - intros n c e Hp Hn Hc Ha.
    unfold TrezorWallet.signTransaction, derivationPathValidator, bind, lift.
    now rewrite Hp, Hn, Hc, Ha.
Qed.

(** X20.  No call talks to the device more than once, and none rewrites
    what was sent before: after open, signTransaction, signMessage or
    verifyMessage the list of requests is the old one, or the old one with
    one request added.  It is the old one, nothing sent at all, whenever a
    check before the round trip throws: the address validation of
    verifyMessage, the path validator and the path conversion of
    signMessage and signTransaction, the nonce and chain id validators of
    signTransaction, the provider generator and the path conversion of
    open; in all these cases but the last the world is untouched, and in
    the last only the no-provider warning can have been printed.  It is the
    old one with one request added whenever those checks pass.
    signMessage and verifyMessage print nothing. *)
Theorem at_most_one_request_per_call (args : obj) (w : World) :
  let sent_by (w' : World) :=
    requests w' = requests w \/
    exists payload, requests w' = (requests w ++ [payload])%list in
  ((forall addressCount provider,
      sent_by (snd (TrezorWallet.open addressCount provider w))) /\
   sent_by (snd (TrezorWallet.signTransaction args w)) /\
   sent_by (snd (TrezorWallet.signMessage args w)) /\
   sent_by (snd (TrezorWallet.verifyMessage args w)) /\
   warnings (snd (TrezorWallet.signMessage args w)) = warnings w /\
   warnings (snd (TrezorWallet.verifyMessage args w)) = warnings w) /\
  (* a check throws: nothing is sent *)
  ((forall e, validateAddress (get "address" args) = Throw e ->
      TrezorWallet.verifyMessage args w = (Throw e, w)) /\
   (derivationPath_accepts (get "path" args) = false ->
      TrezorWallet.signMessage args w
        = (Throw (JsError InputValidationError derivationPathNotValid), w) /\
      TrezorWallet.signTransaction args w
        = (Throw (JsError InputValidationError derivationPathNotValid), w)) /\
   (forall e, derivationPath_accepts (get "path" args) = true ->
      toPathArray (derivationPathNormalizer (get "path" args)) = Throw e ->
      TrezorWallet.signMessage args w = (Throw e, w)) /\
   (forall e, derivationPath_accepts (get "path" args) = true ->
      safeIntegerValidator (with_default (VNum 0) (get "nonce" args)) = Throw e ->
      TrezorWallet.signTransaction args w = (Throw e, w)) /\
   (forall n e, derivationPath_accepts (get "path" args) = true ->
      safeIntegerValidator (with_default (VNum 0) (get "nonce" args)) = Return n ->
      safeIntegerValidator (get "chainId" args) = Throw e ->
      TrezorWallet.signTransaction args w = (Throw e, w)) /\
   (forall n c e, derivationPath_accepts (get "path" args) = true ->
      safeIntegerValidator (with_default (VNum 0) (get "nonce" args)) = Return n ->
      safeIntegerValidator (get "chainId" args) = Return c ->
      toPathArray (derivationPathNormalizer (get "path" args)) = Throw e ->
      TrezorWallet.signTransaction args w = (Throw e, w)) /\
   (forall addressCount provider e,
      TrezorWallet.awaited_provider provider = Throw e ->
      TrezorWallet.open addressCount provider w = (Throw e, w)) /\
   (forall addressCount provider providerMode e,
      TrezorWallet.awaited_provider provider = Return providerMode ->
      toPathArray (derivationPathSerializer
                     (TrezorWallet.coinType_of providerMode) None) = Throw e ->
      TrezorWallet.open addressCount provider w =
      (Throw e,
       mkWorld (warnings w ++ TrezorWallet.provider_warnings provider)%list
               (requests w)))) /\
  (* the checks pass: exactly one request is sent *)
  ((forall validatedAddress,
      validateAddress (get "address" args) = Return validatedAddress ->
      exists payload,
        requests (snd (TrezorWallet.verifyMessage args w))
          = (requests w ++ [payload])%list) /\
   (forall pathArray,
      derivationPath_accepts (get "path" args) = true ->
      toPathArray (derivationPathNormalizer (get "path" args)) = Return pathArray ->
      exists payload,
        requests (snd (TrezorWallet.signMessage args w))
          = (requests w ++ [payload])%list) /\
   (forall n c address_n,
      derivationPath_accepts (get "path" args) = true ->
      safeIntegerValidator (with_default (VNum 0) (get "nonce" args)) = Return n ->
      safeIntegerValidator (get "chainId" args) = Return c ->
      toPathArray (derivationPathNormalizer (get "path" args)) = Return address_n ->
      exists payload,
        requests (snd (TrezorWallet.signTransaction args w))
          = (requests w ++ [payload])%list) /\
   (forall addressCount provider providerMode pathArray,
      TrezorWallet.awaited_provider provider = Return providerMode ->
      toPathArray (derivationPathSerializer
                     (TrezorWallet.coinType_of providerMode) None)
        = Return pathArray ->
      exists payload,
        requests (snd (TrezorWallet.open addressCount provider w))
          = (requests w ++ [payload])%list)).
Proof.
  cbv zeta. split; [|split].
  - split; [|split; [|split; [|split; [|split]]]].
    + intros addressCount provider.
      destruct (TrezorWallet.awaited_provider provider) as [providerMode|e] eqn:Hprov.
      * destruct (toPathArray (derivationPathSerializer
                    (TrezorWallet.coinType_of providerMode) None))
          as [pathArray|e] eqn:Hpath.
        -- rewrite (open_runs _ _ _ _ _ Hprov Hpath). cbv zeta. right.
          exists (TrezorWallet.open_payload pathArray).
          destruct (device _ _); [destruct (TrezorWallet.constructor _ _ _ _ _)|];
            reflexivity.
        -- left. unfold TrezorWallet.open, bind, lift, ret, warning, modify.
          destruct provider; simpl in Hprov;
            try rewrite Hprov; try injection Hprov as <-;
            cbn -[TrezorWallet.coinType_of]; rewrite Hpath; reflexivity.
      * left. unfold TrezorWallet.open, bind, lift.
        destruct provider; simpl in Hprov; try discriminate; now rewrite Hprov.
    + unfold TrezorWallet.signTransaction, derivationPathValidator,
        bind, lift, ret, try_catch, payloadListener, warning, modify.
      destruct (derivationPath_accepts _); simpl; [|now left].
      destruct (safeIntegerValidator _); simpl; [|now left].
      destruct (safeIntegerValidator _); simpl; [|now left].
      destruct (toPathArray _); simpl; [|now left].
      right. eexists.
      destruct (device _ _); [reflexivity|].
      destruct (String.eqb _ _); reflexivity.
    + unfold TrezorWallet.signMessage, derivationPathValidator,
        bind, lift, ret, payloadListener.
      destruct (derivationPath_accepts _); simpl; [|now left].
      destruct (toPathArray _); simpl; [|now left].
      right. eexists. destruct (device _ _); reflexivity.
    + unfold TrezorWallet.verifyMessage, bind, lift, ret, payloadListener.
      destruct (validateAddress _); simpl; [|now left].
      right. eexists. destruct (device _ _); reflexivity.
    + unfold TrezorWallet.signMessage, derivationPathValidator,
        bind, lift, ret, payloadListener.
      destruct (derivationPath_accepts _); simpl; [|reflexivity].
      destruct (toPathArray _); simpl; [|reflexivity].
      destruct (device _ _); reflexivity.
    + unfold TrezorWallet.verifyMessage, bind, lift, ret, payloadListener.
      destruct (validateAddress _); simpl; [|reflexivity].
      destruct (device _ _); reflexivity.
  - destruct (nothing_sent_when_a_check_throws args w)
      as (Hv & Hp & Hm & Hn & Hc & Ha).
    split; [exact Hv|]. split; [exact Hp|]. split; [exact Hm|].
    split; [exact Hn|]. split; [exact Hc|]. split; [exact Ha|]. split.
    + intros addressCount provider e Hprov.
      unfold TrezorWallet.open, bind, lift.
      destruct provider; simpl in Hprov; try discriminate; now rewrite Hprov.
    + intros addressCount provider providerMode e Hprov Hpath.
      unfold TrezorWallet.open, bind, lift, ret, warning, modify.
      destruct provider; simpl in Hprov;
        try rewrite Hprov; try injection Hprov as <-;
        cbn -[TrezorWallet.coinType_of]; rewrite Hpath;
        rewrite ?app_nil_r; now destruct w.
  - split; [|split; [|split]].
    + intros validatedAddress Hv. rewrite (verifyMessage_runs _ _ _ Hv).
      cbv zeta. eexists. reflexivity.
    + intros pathArray Hp Ha. rewrite (signMessage_runs _ _ _ Hp Ha).
      cbv zeta. eexists. reflexivity.
    + intros n c address_n Hp Hn Hc Ha.
      rewrite (signTransaction_runs _ _ _ _ _ Hp Hn Hc Ha). cbv zeta.
      eexists. destruct (device _ _); reflexivity.
    + intros addressCount provider providerMode pathArray Hprov Hpath.
      rewrite (open_runs _ _ _ _ _ Hprov Hpath). cbv zeta. eexists.
      destruct (device _ _); [destruct (TrezorWallet.constructor _ _ _ _ _)|];
        reflexivity.
Qed.

End Opening.

(** ** Explicit chain ids, and the mocked serializer *)
Section Remaining.
Context `{KD : KeyDerivation} `{PC : PathCodec} `{DF : Defaults}
        `{DT : DeviceTransport}.

(** X21.  A chainId that the transaction object does carry is never
    replaced: when it is one the validator refuses (null, a string, a
    negative number), sign throws the validator's error and sends nothing,
    whatever chain the provider is on. *)
Theorem sign_explicit_chainId_is_not_replaced
    (this : TrezorWallet.t) (tx : obj) (n : Z) (w : World) e :
  get "chainId" tx <> VUndefined ->
  safeIntegerValidator (get "chainId" tx) = Throw e ->
  derivationPath_accepts (VStr (TrezorWallet.path this)) = true ->
  safeIntegerValidator (with_default (VNum 0) (get "nonce" tx)) = Return n ->
  get "chainId" (TrezorWallet.sign_arguments this tx) = get "chainId" tx /\
  TrezorWallet.sign this tx w = (Throw e, w).
Proof.
  intros Hexplicit Hc Hp Hn.
  assert (Hsame : get "chainId" (TrezorWallet.sign_arguments this tx)
                  = get "chainId" tx).
  { rewrite sign_arguments_chainId.
    destruct (get "chainId" tx); try reflexivity. contradiction. }
  split; [exact Hsame|].
  unfold TrezorWallet.sign, TrezorWallet.signTransaction, derivationPathValidator.
  rewrite sign_arguments_path, sign_arguments_nonce, Hsame.
  unfold bind, lift. now rewrite Hp, Hn, Hc.
Qed.

(** X22.  With the serializer of the test suite in place of the real one,
    every address object carries the same path: the wallet's path is the
    mocked string from the start and stays so through any
    setDefaultAddress, which then moves the address and the public key
    only. *)
Theorem mocked_serializer_fixes_the_path
    pk cc coinType addressCount prov (w : TrezorWallet.t) (addressIndex : value) :
  derivationPathSerializer = mocked_derivationPathSerializer ->
  TrezorWallet.constructor pk cc coinType addressCount prov = Return w ->
  TrezorWallet.path w = "mocked-derivation-path" /\
  (forall r, In r (TrezorWallet.allAddresses w) ->
     AddressObject.path r = "mocked-derivation-path") /\
  TrezorWallet.path (snd (TrezorWallet.setDefaultAddress addressIndex w))
    = "mocked-derivation-path".
Proof.
  intros Hmock Hw.
  destruct (constructor_records _ _ _ _ _ _ Hw) as (hdKey & _ & Hrec).
  assert (Hall : forall r, In r (TrezorWallet.allAddresses w) ->
                   AddressObject.path r = "mocked-derivation-path").
  { intros r Hin. apply list_elem_of_In, list_elem_of_lookup in Hin as [i Hi].
    destruct (Hrec i) as (r' & Hr' & _ & _ & Hp).
    { apply lookup_lt_Some in Hi. exact Hi. }
    assert (r' = r) as -> by congruence.
    rewrite Hp, Hmock. reflexivity. }
  assert (Hpath : TrezorWallet.path w = "mocked-derivation-path").
  { pose proof Hw as Hw'.
    apply constructor_Return in Hw'
      as (n & hdKey' & records & r0 & _ & _ & _ & Hr0 & ->).
    simpl in *. apply Hall.
    apply list_elem_of_In. eapply list_elem_of_lookup_2. exact Hr0. }
  split; [exact Hpath|]. split; [exact Hall|].
  unfold TrezorWallet.setDefaultAddress, bind, lift, gets.
  destruct (safeIntegerValidator _) as [i|e0]; simpl; [|exact Hpath].
  destruct (Z.leb 0 i && Z.leb i _); simpl; [|exact Hpath].
  unfold member, index. destruct (Z.leb 0 i); simpl; [|exact Hpath].
  destruct (TrezorWallet.allAddresses w !! Z.to_nat i) as [r|] eqn:Hr; simpl;
    [|exact Hpath].
  apply Hall. apply list_elem_of_In. eapply list_elem_of_lookup_2. exact Hr.
Qed.

End Remaining.

(** * Concrete runs

    The class on the stand-ins of [Fake]: instances of the theorems above at
    explicit inputs, and the inputs at which the specification's own wording
    does not hold. *)
Import Fake.

Lemma setDefaultAddress_within_and_beyond_witness :
  TrezorWallet.constructor (VStr "pk") (VStr "cc") 60 (VNum 2) None = Return wallet2 /\
  1 <= 2 /\ 0 <= 1 <= MAX_SAFE_INTEGER /\
  TrezorWallet.setDefaultAddress (VNum 1) wallet2 =
  (Return true,
   TrezorWallet.mk "0xpk@m/1" "pk@m/1" "m/44'/60'/0'/0/1" "hardware" "trezor"
     None (Some ["0xpk@m/0"; "0xpk@m/1"]) (TrezorWallet.allAddresses wallet2)).
Proof.
  assert (Hw : TrezorWallet.constructor (VStr "pk") (VStr "cc") 60 (VNum 2) None
               = Return wallet2) by reflexivity.
  assert (Hc : 1 <= 2) by lia.
  assert (Hi : 0 <= 1 <= MAX_SAFE_INTEGER) by (unfold MAX_SAFE_INTEGER; lia).
  split; [exact Hw|]. split; [exact Hc|]. split; [exact Hi|].
  destruct (setDefaultAddress_within_and_beyond
              (VStr "pk") (VStr "cc") 60 2 None wallet2 1 Hw Hc Hi) as [Hin _].
  destruct Hin as (r & Hr & Hset); [lia|].
  simpl in Hr. injection Hr as <-. exact Hset.
Defined.

(** The failing input of C1: the one-address wallet and index 1, which is
    within 0..length; the call neither returns true nor reassigns anything,
    it throws a TypeError. *)
Lemma C1_setDefaultAddress_count_rejects_witness :
  TrezorWallet.constructor (VStr "pk") (VStr "cc") 60 (VNum 1) None = Return wallet1 /\
  1 <= 1 /\
  0 <= 1 <= Z.of_nat (length (TrezorWallet.allAddresses wallet1)) /\
  TrezorWallet.setDefaultAddress (VNum 1) wallet1 =
    (Throw (JsError TypeError "Cannot read property of undefined"), wallet1).
Proof.
  assert (Hw : TrezorWallet.constructor (VStr "pk") (VStr "cc") 60 (VNum 1) None
               = Return wallet1) by reflexivity.
  assert (Hc : 1 <= 1) by lia.
  split; [exact Hw|]. split; [exact Hc|].
  destruct (C1_setDefaultAddress_count_rejects
              (VStr "pk") (VStr "cc") 60 1 None wallet1 Hw Hc)
    as (_ & Hrange & Hthrows & _).
  split; [exact Hrange | exact Hthrows].
Defined.

Lemma C2_child_key_at_index_path_witness :
  TrezorWallet.constructor (VStr "pk") (VStr "cc") 60 (VNum 2) None = Return wallet2 /\
  exists w', TrezorWallet.constructor (VStr "pk") (VStr "cc") 1 (VNum 2) None = Return w' /\
    map AddressObject.publicKey (TrezorWallet.allAddresses w')
      = map AddressObject.publicKey (TrezorWallet.allAddresses wallet2).
Proof.
  assert (Hw : TrezorWallet.constructor (VStr "pk") (VStr "cc") 60 (VNum 2) None
               = Return wallet2) by reflexivity.
  split; [exact Hw|].
  destruct (C2_child_key_at_index_path _ _ _ _ _ _ Hw) as [_ Hsame].
  destruct (Hsame 1) as (w' & Hw' & Hkeys & _).
  exists w'. split; [exact Hw' | exact Hkeys].
Defined.

(** C2 as stated fails: with coin type 60, the key of address object 1 is
    the child derived at m/1, not the one derived at m/60/1; building the
    wallet with coin type 1 instead gives the very same keys. *)
Lemma C2_coinType_not_in_derivation :
  TrezorWallet.constructor (VStr "pk") (VStr "cc") 60 (VNum 2) None = Return wallet2 /\
  HDKey_new (VStr "pk") (VStr "cc") = Return ("pk", "cc") /\
  (exists r, TrezorWallet.allAddresses wallet2 !! 1%nat = Some r /\
     HDKey_derive ("pk", "cc") "m/1" = Return (AddressObject.publicKey r) /\
     HDKey_derive ("pk", "cc") "m/60/1" <> Return (AddressObject.publicKey r)) /\
  (exists w', TrezorWallet.constructor (VStr "pk") (VStr "cc") 1 (VNum 2) None = Return w' /\
     map AddressObject.publicKey (TrezorWallet.allAddresses w')
       = map AddressObject.publicKey (TrezorWallet.allAddresses wallet2) /\
     map AddressObject.address (TrezorWallet.allAddresses w')
       = map AddressObject.address (TrezorWallet.allAddresses wallet2)).
Proof.
  split; [reflexivity|]. split; [reflexivity|]. split.
  - eexists. split; [reflexivity|]. split; [reflexivity | discriminate].
  - eexists. split; [reflexivity|]. split; reflexivity.
Qed.

Lemma C3_otherAddresses_holds_all_witness :
  TrezorWallet.constructor (VStr "pk") (VStr "cc") 60 (VNum 2) None = Return wallet2 /\
  1 < 2 /\
  exists addresses,
    TrezorWallet.otherAddresses wallet2 = Some addresses /\
    Z.of_nat (length addresses) = 2.
Proof.
  assert (Hw : TrezorWallet.constructor (VStr "pk") (VStr "cc") 60 (VNum 2) None
               = Return wallet2) by reflexivity.
  assert (Hc : 1 < 2) by lia.
  split; [exact Hw|]. split; [exact Hc|].
  destruct (C3_otherAddresses_holds_all _ _ _ _ _ _ Hw) as [Hmany _].
  destruct (Hmany Hc) as (addresses & Hsome & _ & Hlen & _).
  exists addresses. split; [exact Hsome | exact Hlen].
Defined.

(** C3 as stated fails: the two-address wallet has two entries in
    otherAddresses, not one, and the first of them is the address of
    index 0. *)
Lemma C3_otherAddresses_includes_index_0 :
  TrezorWallet.constructor (VStr "pk") (VStr "cc") 60 (VNum 2) None = Return wallet2 /\
  TrezorWallet.otherAddresses wallet2 = Some ["0xpk@m/0"; "0xpk@m/1"] /\
  (exists r0, TrezorWallet.allAddresses wallet2 !! 0%nat = Some r0 /\
     In (AddressObject.address r0) ["0xpk@m/0"; "0xpk@m/1"]) /\
  Z.of_nat (length ["0xpk@m/0"; "0xpk@m/1"]) <> 2 - 1.
Proof.
  split; [reflexivity|]. split; [reflexivity|]. split.
  - eexists. split; [reflexivity|]. now left.
  - simpl. lia.
Qed.

(** The failing input of C4: the device rejects the export request, and the
    signing request, with an error that is no cancellation; both calls
    return undefined and print nothing. *)
Lemma C4_other_rejections_are_swallowed_witness :
  TrezorWallet.open (DT := answering (Throw disconnected))
    (VNum 1) (TrezorWallet.ProviderObject None) world0
  = (Return None, mkWorld [] [TrezorWallet.open_payload [14]]) /\
  fst (TrezorWallet.signTransaction (DT := answering (Throw disconnected))
         (transaction 3) world0)
  = Return None.
Proof.
  destruct (C4_other_rejections_are_swallowed (DT := answering (Throw disconnected)))
    as [Hopen Hsign].
  split.
  - apply (Hopen (VNum 1) (TrezorWallet.ProviderObject None) None [14] world0
             disconnected); [reflexivity | reflexivity | reflexivity | discriminate].
  - rewrite (Hsign (transaction 3) 3 1 [16] world0 disconnected);
      [reflexivity | reflexivity | reflexivity | reflexivity | reflexivity
      | reflexivity | discriminate].
Defined.

(** The failing input of C5: open({ addressCount: -1 }) against a device
    that answers the export request.  The constructor throws the
    validator's error; open resolves to undefined. *)
Lemma C5_open_swallows_validation_error_witness :
  safeIntegerValidator (with_default (VNum 10) (VNum (-1)))
    = Throw (JsError InputValidationError "Integer is not a safe integer") /\
  TrezorWallet.constructor (VStr "pk") (VStr "cc") 60 (VNum (-1)) None
    = Throw (JsError InputValidationError "Integer is not a safe integer") /\
  fst (TrezorWallet.open (DT := answering (Return xpub))
         (VNum (-1)) (TrezorWallet.ProviderObject None) world0)
    = Return None.
Proof.
  split; [reflexivity|].
  apply (C5_open_swallows_validation_error (DT := answering (Return xpub))
           (VNum (-1)) (TrezorWallet.ProviderObject None) None [14] world0 xpub
           (JsError InputValidationError "Integer is not a safe integer"));
    reflexivity.
Defined.

Lemma C6_cancellation_is_absent_result_and_warning_witness :
  TrezorWallet.open (DT := answering (Throw export_cancelled))
    (VNum 1) (TrezorWallet.ProviderObject None) world0
  = (Return None,
     mkWorld ["User cancelled the account export request"]
             [TrezorWallet.open_payload [14]]) /\
  TrezorWallet.signTransaction (DT := answering (Throw sign_cancelled))
    (transaction 3) world0
  = (Return None,
     mkWorld ["User cancelled signing the transaction"]
             [TrezorWallet.signTransaction_payload (transaction 3) "3" [16]]).
Proof.
  split.
  - refine (proj1 (C6_cancellation_is_absent_result_and_warning
                     (DT := answering (Throw export_cancelled)))
              (VNum 1) (TrezorWallet.ProviderObject None) None [14] world0
              export_cancelled _ _ _ _); reflexivity.
  - refine (proj2 (C6_cancellation_is_absent_result_and_warning
                     (DT := answering (Throw sign_cancelled)))
              (transaction 3) 3 1 [16] world0 sign_cancelled _ _ _ _ _ _);
      reflexivity.
Defined.

Lemma C7_message_operations_propagate_witness :
  TrezorWallet.signMessage (DT := answering (Throw sign_cancelled))
    {[ "path" := VStr "m/44'/60'/0'/0/0"; "message" := VStr "Sign me" ]} world0
  = (Throw sign_cancelled,
     mkWorld [] [TrezorWallet.signMessage_payload [16] (VStr "Sign me")]) /\
  TrezorWallet.verifyMessage (DT := answering (Throw export_cancelled))
    signed_message world0
  = (Throw export_cancelled,
     mkWorld [] [TrezorWallet.verifyMessage_payload signed_message "0xabc"]).
Proof.
  split.
  - refine (proj1 (C7_message_operations_propagate
                     (DT := answering (Throw sign_cancelled)))
              {[ "path" := VStr "m/44'/60'/0'/0/0"; "message" := VStr "Sign me" ]}
              [16] world0 sign_cancelled _ _ _); reflexivity.
  - refine (proj1 (proj2 (C7_message_operations_propagate
                            (DT := answering (Throw export_cancelled))))
              signed_message "0xabc" world0 export_cancelled _ _); reflexivity.
Defined.

Lemma C8_chainId_precedence_witness :
  get "chainId" (TrezorWallet.sign_arguments (wallet_on_chain 1)
                   {[ "chainId" := VNum 4 ]}) = VNum 4 /\
  get "chainId" (TrezorWallet.sign_arguments (wallet_on_chain 4) ∅) = VNum 4 /\
  get "chainId" (TrezorWallet.sign_arguments wallet1 ∅) = VNum 1.
Proof.
  split; [|split].
  - apply (proj1 (proj2 (proj2
      (C8_chainId_precedence (wallet_on_chain 1) {[ "chainId" := VNum 4 ]})))).
    reflexivity.
  - apply (proj1 (proj2 (proj2 (proj2
      (C8_chainId_precedence (wallet_on_chain 4) ∅))))
      {[ "chainId" := VNum 4 ]}); reflexivity.
  - apply (proj2 (proj2 (proj2 (proj2
      (C8_chainId_precedence wallet1 ∅))))); reflexivity.
Defined.

(** C8 as stated fails: with a provider set whose chainId is 0 and a
    transaction object without chainId, what goes to signTransaction is 1,
    not the provider's chainId. *)
Lemma C8_provider_chainId_0_yields_1 :
  get "chainId" (∅ : obj) = VUndefined /\
  (exists p, TrezorWallet.provider (wallet_on_chain 0) = Some p /\
     get "chainId" p = VNum 0) /\
  get "chainId" (TrezorWallet.sign_arguments (wallet_on_chain 0) ∅) = VNum 1 /\
  get "chainId" (TrezorWallet.sign_arguments (wallet_on_chain 0) ∅) <> VNum 0.
Proof.
  split; [reflexivity|]. split; [eexists; split; reflexivity|].
  split; [reflexivity | discriminate].
Qed.

Lemma C9_nonce_even_length_hex_witness :
  get "nonce" (transaction 300) = VNum 300 /\
  0 <= 300 <= MAX_SAFE_INTEGER /\
  derivationPath_accepts (get "path" (transaction 300)) = true /\
  safeIntegerValidator (get "chainId" (transaction 300)) = Return 1 /\
  toPathArray (derivationPathNormalizer (get "path" (transaction 300))) = Return [16] /\
  exists payload,
    requests (snd (TrezorWallet.signTransaction (DT := answering (Return ∅))
                     (transaction 300) world0)) = [payload] /\
    get "nonce" payload = VStr "012c".
Proof.
  assert (Hnonce : get "nonce" (transaction 300) = VNum 300) by reflexivity.
  assert (Hn : 0 <= 300 <= MAX_SAFE_INTEGER) by (unfold MAX_SAFE_INTEGER; lia).
  assert (Hp : derivationPath_accepts (get "path" (transaction 300)) = true)
    by reflexivity.
  assert (Hc : safeIntegerValidator (get "chainId" (transaction 300)) = Return 1)
    by reflexivity.
  assert (Ha : toPathArray (derivationPathNormalizer (get "path" (transaction 300)))
               = Return [16]) by reflexivity.
  split; [exact Hnonce|]. split; [exact Hn|]. split; [exact Hp|].
  split; [exact Hc|]. split; [exact Ha|].
  destruct (C9_nonce_even_length_hex (DT := answering (Return ∅))
              (transaction 300) 300 1 [16] world0 Hnonce Hn Hp Hc Ha)
    as (payload & hex & Hreq & Hhex & _ & _ & _ & _ & H300).
  exists payload. split; [exact Hreq|].
  rewrite Hhex. f_equal. apply H300. reflexivity.
Defined.

(** The caller's path is seventeen characters long, the wallet's default
    path sixteen: the request carries the array form of the latter. *)
Lemma C10_sign_uses_default_path_witness :
  get "path" (TrezorWallet.sign_arguments wallet2
                (<["path" := VStr "m/44'/60'/0'/0/77"]> (transaction 3)))
    = VStr "m/44'/60'/0'/0/0" /\
  TrezorWallet.sign (DT := answering (Return ∅)) wallet2
    (<["path" := VStr "m/44'/60'/0'/0/77"]> (transaction 3))
  = TrezorWallet.sign (DT := answering (Return ∅)) wallet2 (transaction 3) /\
  exists payload,
    requests (snd (TrezorWallet.sign (DT := answering (Return ∅)) wallet2
                     (<["path" := VStr "m/44'/60'/0'/0/77"]> (transaction 3))
                     world0))
      = [payload] /\
    get "address_n" payload = VArr [16].
Proof.
  destruct (C10_sign_uses_default_path (DT := answering (Return ∅))
              wallet2 (transaction 3)) as (_ & Hdrop & Hsent).
  destruct (Hdrop (VStr "m/44'/60'/0'/0/77")) as [Hpath Hsame].
  split; [exact Hpath|]. split; [exact Hsame|].
  refine (Hsent (VStr "m/44'/60'/0'/0/77") 3 1 [16] world0 _ _ _ _);
    reflexivity.
Defined.

Lemma setDefaultAddress_at_length_witness :
  0 <= 2 <= MAX_SAFE_INTEGER /\
  2 = Z.of_nat (length (TrezorWallet.allAddresses wallet2)) /\
  TrezorWallet.setDefaultAddress (VNum 2) wallet2 =
  (Throw (JsError TypeError "Cannot read property of undefined"), wallet2).
Proof.
  assert (Hi : 0 <= 2 <= MAX_SAFE_INTEGER) by (unfold MAX_SAFE_INTEGER; lia).
  assert (Hlen : 2 = Z.of_nat (length (TrezorWallet.allAddresses wallet2)))
    by reflexivity.
  split; [exact Hi|]. split; [exact Hlen|].
  exact (setDefaultAddress_at_length wallet2 2 Hi Hlen).
Defined.

Lemma constructor_returns_witness :
  0 <= 2 <= MAX_ARRAY_LENGTH /\
  HDKey_new (VStr "pk") (VStr "cc") = Return ("pk", "cc") /\
  exists w, TrezorWallet.constructor (VStr "pk") (VStr "cc") 60 (VNum 2) None = Return w.
Proof.
  assert (Hc : 0 <= 2 <= MAX_ARRAY_LENGTH) by (unfold MAX_ARRAY_LENGTH; lia).
  assert (Hk : HDKey_new (VStr "pk") (VStr "cc") = Return ("pk", "cc"))
    by reflexivity.
  split; [exact Hc|]. split; [exact Hk|].
  apply (constructor_returns (KD := keys)
           (VStr "pk") (VStr "cc") 60 2 None ("pk", "cc") Hc Hk).
  intros i _. eexists. eexists. split; reflexivity.
Defined.

Lemma open_resolves_to_wallet_witness :
  TrezorWallet.open (DT := answering (Return xpub))
    (VNum 1) (TrezorWallet.ProviderObject None) world0
  = (Return (Some wallet1), mkWorld [] [TrezorWallet.open_payload [14]]).
Proof.
  refine (open_resolves_to_wallet (DT := answering (Return xpub))
            (VNum 1) (TrezorWallet.ProviderObject None) None [14] world0 xpub
            wallet1 _ _ _ _); reflexivity.
Defined.

(** ** Further runs *)

Lemma constructor_count_zero_and_default_witness :
  TrezorWallet.constructor (VStr "pk") (VStr "cc") 60 (VNum 0) None = Return wallet1 /\
  length (TrezorWallet.allAddresses wallet1) = 1%nat /\
  TrezorWallet.otherAddresses wallet1 = None.
Proof.
  assert (Hw : TrezorWallet.constructor (VStr "pk") (VStr "cc") 60 (VNum 0) None
               = Return wallet1) by reflexivity.
  split; [exact Hw|].
  exact (proj1 (proj2 (proj2
           (constructor_count_zero_and_default (VStr "pk") (VStr "cc") 60 None)))
           wallet1 Hw).
Defined.

Lemma constructor_starts_at_index_0_witness :
  TrezorWallet.constructor (VStr "pk") (VStr "cc") 60 (VNum 2) None = Return wallet2 /\
  TrezorWallet.path wallet2 = derivationPathSerializer 60 (Some 0) /\
  HDKey_derive ("pk", "cc") "m/0" = Return (TrezorWallet.publicKey wallet2).
Proof.
  assert (Hw : TrezorWallet.constructor (VStr "pk") (VStr "cc") 60 (VNum 2) None
               = Return wallet2) by reflexivity.
  split; [exact Hw|].
  destruct (constructor_starts_at_index_0 _ _ _ _ _ _ Hw)
    as (hdKey & r0 & Hk & _ & _ & _ & _ & Hd & _ & Hp & _).
  split; [exact Hp|].
  injection Hk as <-. exact Hd.
Defined.

Lemma constructor_count_beyond_array_length_witness :
  MAX_ARRAY_LENGTH < 4294967296 <= MAX_SAFE_INTEGER /\
  HDKey_new (VStr "pk") (VStr "cc") = Return ("pk", "cc") /\
  TrezorWallet.constructor (VStr "pk") (VStr "cc") 60 (VNum 4294967296) None =
  Throw (JsError RangeError "Invalid array length").
Proof.
  assert (Hc : MAX_ARRAY_LENGTH < 4294967296 <= MAX_SAFE_INTEGER)
    by (unfold MAX_ARRAY_LENGTH, MAX_SAFE_INTEGER; lia).
  assert (Hk : HDKey_new (VStr "pk") (VStr "cc") = Return ("pk", "cc"))
    by reflexivity.
  split; [exact Hc|]. split; [exact Hk|].
  exact (constructor_count_beyond_array_length (KD := keys)
           (VStr "pk") (VStr "cc") 60 4294967296 None ("pk", "cc") Hc Hk).
Defined.

Lemma constructor_stops_at_first_failed_derivation_witness :
  0 <= 3 <= MAX_ARRAY_LENGTH /\
  HDKey_new (KeyDerivation := keys_failing_at_1) (VStr "pk") (VStr "cc")
    = Return ("pk", "cc") /\
  HDKey_derive (KeyDerivation := keys_failing_at_1) ("pk", "cc") "m/1"
    = Throw (JsError TypeError "Could not derive") /\
  TrezorWallet.constructor (KD := keys_failing_at_1)
    (VStr "pk") (VStr "cc") 60 (VNum 3) None
  = Throw (JsError TypeError "Could not derive").
Proof.
  assert (Hc : 0 <= 3 <= MAX_ARRAY_LENGTH) by (unfold MAX_ARRAY_LENGTH; lia).
  assert (Hk : HDKey_new (KeyDerivation := keys_failing_at_1) (VStr "pk") (VStr "cc")
               = Return ("pk", "cc")) by reflexivity.
  assert (Hd : HDKey_derive (KeyDerivation := keys_failing_at_1) ("pk", "cc") "m/1"
               = Throw (JsError TypeError "Could not derive")) by reflexivity.
  split; [exact Hc|]. split; [exact Hk|]. split; [exact Hd|].
  refine (constructor_stops_at_first_failed_derivation (KD := keys_failing_at_1)
            (VStr "pk") (VStr "cc") 60 3 None ("pk", "cc") 1
            (JsError TypeError "Could not derive") Hc Hk _ _ (or_introl Hd)).
  - simpl. lia.
  - intros i Hi. assert (i = 0%nat) as -> by lia.
    eexists. eexists. split; reflexivity.
Defined.

Lemma setDefaultAddress_all_or_nothing_witness :
  fst (TrezorWallet.setDefaultAddress (VStr "1") wallet2) <> Return true /\
  snd (TrezorWallet.setDefaultAddress (VStr "1") wallet2) = wallet2 /\
  snd (TrezorWallet.setDefaultAddress (VNum 7) wallet2) = wallet2.
Proof.
  assert (Hs : fst (TrezorWallet.setDefaultAddress (VStr "1") wallet2) <> Return true)
    by discriminate.
  assert (Hn : fst (TrezorWallet.setDefaultAddress (VNum 7) wallet2) <> Return true)
    by discriminate.
  split; [exact Hs|]. split.
  - exact (proj1 (proj2 (proj2 (proj2 (proj2 (proj2
             (setDefaultAddress_all_or_nothing (VStr "1") wallet2)))))) Hs).
  - exact (proj1 (proj2 (proj2 (proj2 (proj2 (proj2
             (setDefaultAddress_all_or_nothing (VNum 7) wallet2)))))) Hn).
Defined.

Lemma setDefaultAddress_last_call_wins_witness :
  TrezorWallet.constructor (VStr "pk") (VStr "cc") 60 (VNum 2) None = Return wallet2 /\
  0 <= 1 < Z.max 2 1 /\
  TrezorWallet.path (snd (TrezorWallet.setDefaultAddress (VNum 1) wallet2))
    = "m/44'/60'/0'/0/1" /\
  TrezorWallet.setDefaultAddress VUndefined
    (snd (TrezorWallet.setDefaultAddress (VNum 1) wallet2))
  = (Return true, wallet2).
Proof.
  assert (Hw : TrezorWallet.constructor (VStr "pk") (VStr "cc") 60 (VNum 2) None
               = Return wallet2) by reflexivity.
  assert (Hi : 0 <= 1 < Z.max 2 1) by lia.
  split; [exact Hw|]. split; [exact Hi|]. split; [reflexivity|].
  exact (proj2 (setDefaultAddress_last_call_wins
                  (VStr "pk") (VStr "cc") 60 2 None wallet2 1 1 Hw Hi Hi)).
Defined.

Lemma setDefaultAddress_redirects_methods_witness :
  TrezorWallet.constructor (VStr "pk") (VStr "cc") 60 (VNum 2) None = Return wallet2 /\
  Z.of_nat 1 < Z.max 2 1 /\
  get "path" (TrezorWallet.sign_arguments
                (snd (TrezorWallet.setDefaultAddress (VNum (Z.of_nat 1)) wallet2))
                (transaction 3))
  = VStr "m/44'/60'/0'/0/1".
Proof.
  assert (Hw : TrezorWallet.constructor (VStr "pk") (VStr "cc") 60 (VNum 2) None
               = Return wallet2) by reflexivity.
  assert (Hi : Z.of_nat 1 < Z.max 2 1) by (simpl; lia).
  split; [exact Hw|]. split; [exact Hi|].
  destruct (setDefaultAddress_redirects_methods (DT := answering (Return ∅))
              (VStr "pk") (VStr "cc") 60 2 None wallet2 1 Hw Hi)
    as (r & _ & Hsign & _).
  exact (Hsign (transaction 3)).
Defined.

(** Two transaction objects that differ in nonce go out as different
    requests; an extra property changes nothing. *)
Lemma signTransaction_request_shape_witness :
  derivationPath_accepts (get "path" (transaction 300)) = true /\
  safeIntegerValidator (with_default (VNum 0) (get "nonce" (transaction 300)))
    = Return 300 /\
  (exists payload,
     requests (snd (TrezorWallet.signTransaction
                      (DT := answering (Return signature_rsv))
                      (transaction 300) world0)) = [payload] /\
     get "nonce" payload = VStr "012c" /\
     get "address_n" payload = VArr [16] /\
     get "chain_id" payload = VNum 1 /\
     get "to" payload = VStr "0xabc" /\
     get "type" payload = VStr "signethtx") /\
  TrezorWallet.signTransaction (DT := answering (Return signature_rsv))
    (<["from" := VStr "0xdef"]> (transaction 300)) world0
  = TrezorWallet.signTransaction (DT := answering (Return signature_rsv))
      (transaction 300) world0.
Proof.
  assert (Hp : derivationPath_accepts (get "path" (transaction 300)) = true)
    by reflexivity.
  assert (Hn : safeIntegerValidator
                 (with_default (VNum 0) (get "nonce" (transaction 300)))
               = Return 300) by reflexivity.
  assert (Hc : safeIntegerValidator (get "chainId" (transaction 300)) = Return 1)
    by reflexivity.
  assert (Ha : toPathArray (derivationPathNormalizer (get "path" (transaction 300)))
               = Return [16]) by reflexivity.
  split; [exact Hp|]. split; [exact Hn|].
  destruct (signTransaction_request_shape (DT := answering (Return signature_rsv))
              (transaction 300) 300 1 [16] world0 Hp Hn Hc Ha)
    as [(payload & Hreq & Haddr & Hnonce & _ & _ & Hchain & Hto & _ & _ & Htemplate)
        Hframe].
  split.
  - exists payload. split; [exact Hreq|]. split; [exact Hnonce|].
    split; [exact Haddr|]. split; [exact Hchain|]. split; [exact Hto|].
    refine (eq_trans (Htemplate "type" _) _); [|reflexivity].
    simpl. intuition discriminate.
  - refine (Hframe "from" (VStr "0xdef") _). simpl. intuition discriminate.
Defined.

Lemma signTransaction_nonce_defaults_to_0_witness :
  get "nonce" (delete "nonce" (transaction 3)) = VUndefined /\
  TrezorWallet.signTransaction (DT := answering (Return signature_rsv))
    (delete "nonce" (transaction 3)) world0
  = TrezorWallet.signTransaction (DT := answering (Return signature_rsv))
      (<["nonce" := VNum 0]> (delete "nonce" (transaction 3))) world0.
Proof.
  assert (Hn : get "nonce" (delete "nonce" (transaction 3)) = VUndefined)
    by reflexivity.
  split; [exact Hn|].
  exact (proj1 (signTransaction_nonce_defaults_to_0
                  (DT := answering (Return signature_rsv))
                  (delete "nonce" (transaction 3)) world0 Hn)).
Defined.

Lemma sign_resolves_to_device_answer_witness :
  derivationPath_accepts (VStr (TrezorWallet.path (wallet_on_chain 4))) = true /\
  safeIntegerValidator
    (get "chainId" (TrezorWallet.sign_arguments (wallet_on_chain 4)
                      {[ "nonce" := VNum 300; "to" := VStr "0xabc" ]}))
    = Return 4 /\
  exists payload,
    TrezorWallet.sign (DT := answering (Return signature_rsv)) (wallet_on_chain 4)
      {[ "nonce" := VNum 300; "to" := VStr "0xabc" ]} world0
    = (Return (Some signature_rsv), mkWorld [] [payload]) /\
    get "chain_id" payload = VNum 4 /\
    get "to" payload = VStr "0xabc".
Proof.
  assert (Hp : derivationPath_accepts
                 (VStr (TrezorWallet.path (wallet_on_chain 4))) = true)
    by reflexivity.
  assert (Hc : safeIntegerValidator
                 (get "chainId" (TrezorWallet.sign_arguments (wallet_on_chain 4)
                                   {[ "nonce" := VNum 300; "to" := VStr "0xabc" ]}))
               = Return 4) by reflexivity.
  assert (Hn : safeIntegerValidator
                 (with_default (VNum 0)
                    (get "nonce" ({[ "nonce" := VNum 300; "to" := VStr "0xabc" ]} : obj)))
               = Return 300) by reflexivity.
  assert (Ha : toPathArray (derivationPathNormalizer
                              (VStr (TrezorWallet.path (wallet_on_chain 4))))
               = Return [16]) by reflexivity.
  assert (Hdev : device (DeviceTransport := answering (Return signature_rsv))
                   (requests world0)
                   (TrezorWallet.signTransaction_payload
                      (TrezorWallet.sign_arguments (wallet_on_chain 4)
                         {[ "nonce" := VNum 300; "to" := VStr "0xabc" ]})
                      (toString16 300) [16]) = Return signature_rsv)
    by reflexivity.
  split; [exact Hp|]. split; [exact Hc|].
  destruct (sign_resolves_to_device_answer (DT := answering (Return signature_rsv))
              (wallet_on_chain 4) {[ "nonce" := VNum 300; "to" := VStr "0xabc" ]}
              300 4 [16] world0 signature_rsv Hp Hn Hc Ha Hdev)
    as (payload & Hsign & _ & Hchain & _ & Hto & _).
  exists payload. split; [exact Hsign|]. split; [exact Hchain | exact Hto].
Defined.

Lemma verifyMessage_strips_0x_witness :
  validateAddress (get "address" signed_message) = Return "0xabc" /\
  exists payload,
    requests (snd (TrezorWallet.verifyMessage
                     (DT := answering (Return {[ "success" := VBool true ]}))
                     signed_message world0)) = [payload] /\
    get "address" payload = VStr "abc" /\
    fst (TrezorWallet.verifyMessage
           (DT := answering (Return {[ "success" := VBool true ]}))
           signed_message world0) = Return (VBool true).
Proof.
  assert (Hv : validateAddress (get "address" signed_message) = Return "0xabc")
    by reflexivity.
  split; [exact Hv|].
  destruct (verifyMessage_strips_0x
              (DT := answering (Return {[ "success" := VBool true ]}))
              signed_message "0xabc" world0 Hv)
    as (payload & Hreq & Hstrip & _ & _ & _ & Hres).
  exists payload. split; [exact Hreq|]. split.
  - exact (Hstrip "abc" eq_refl).
  - exact (Hres {[ "success" := VBool true ]} eq_refl).
Defined.

Lemma signMessage_request_and_result_witness :
  derivationPath_accepts (get "path" (transaction 3)) = true /\
  toPathArray (derivationPathNormalizer (get "path" (transaction 3))) = Return [16] /\
  exists payload,
    snd (TrezorWallet.signMessage
           (DT := answering (Return {[ "signature" := VStr "c2ln" ]}))
           (transaction 3) world0) = mkWorld [] [payload] /\
    get "path" payload = VArr [16] /\
    fst (TrezorWallet.signMessage
           (DT := answering (Return {[ "signature" := VStr "c2ln" ]}))
           (transaction 3) world0) = Return (VStr "c2ln").
Proof.
  assert (Hp : derivationPath_accepts (get "path" (transaction 3)) = true)
    by reflexivity.
  assert (Ha : toPathArray (derivationPathNormalizer (get "path" (transaction 3)))
               = Return [16]) by reflexivity.
  split; [exact Hp|]. split; [exact Ha|].
  destruct (signMessage_request_and_result
              (DT := answering (Return {[ "signature" := VStr "c2ln" ]}))
              (transaction 3) [16] world0 Hp Ha)
    as (payload & Hworld & Hpath & _ & _ & Hres).
  exists payload. split; [exact Hworld|]. split; [exact Hpath|].
  exact (Hres {[ "signature" := VStr "c2ln" ]} eq_refl).
Defined.

Lemma wallet_message_methods_arguments_witness :
  TrezorWallet.wallet_signMessage (DT := answering (Throw disconnected)) wallet2
    (<["path" := VStr "m/44'/60'/0'/0/77"]> signed_message)
  = TrezorWallet.wallet_signMessage (DT := answering (Throw disconnected)) wallet2
      signed_message.
Proof.
  refine (proj1 (wallet_message_methods_arguments
                   (DT := answering (Throw disconnected)) wallet2 signed_message)
            "path" (VStr "m/44'/60'/0'/0/77") _).
  discriminate.
Defined.

Lemma open_coin_type_follows_provider_witness :
  TrezorWallet.awaited_provider (TrezorWallet.ProviderObject (Some nameless))
    = Return (Some nameless) /\
  TrezorWallet.open (DT := answering (Return xpub))
    (VNum 1) (TrezorWallet.ProviderObject (Some nameless)) world0
  = (Return (Some wallet1_testnet), mkWorld [] [TrezorWallet.open_payload [13]]) /\
  TrezorWallet.coinType_of (Some nameless) = COIN_TESTNET /\
  TrezorWallet.path wallet1_testnet = "m/44'/1'/0'/0/0".
Proof.
  assert (Hprov : TrezorWallet.awaited_provider
                    (TrezorWallet.ProviderObject (Some nameless))
                  = Return (Some nameless)) by reflexivity.
  assert (Hopen : TrezorWallet.open (DT := answering (Return xpub))
                    (VNum 1) (TrezorWallet.ProviderObject (Some nameless)) world0
                  = (Return (Some wallet1_testnet),
                     mkWorld [] [TrezorWallet.open_payload [13]])) by reflexivity.
  assert (Hpath : toPathArray (derivationPathSerializer
                                 (TrezorWallet.coinType_of (Some nameless)) None)
                  = Return [13]) by reflexivity.
  split; [exact Hprov|]. split; [exact Hopen|].
  destruct (open_coin_type_follows_provider (DT := answering (Return xpub))
              (VNum 1) (TrezorWallet.ProviderObject (Some nameless))
              (Some nameless) [13] world0 _ wallet1_testnet Hprov Hpath Hopen)
    as (_ & _ & _ & _ & _ & _ & Htest).
  split; [|reflexivity].
  refine (Htest nameless eq_refl (or_intror _)). discriminate.
Defined.

Lemma open_rejects_before_the_request_witness :
  TrezorWallet.open (DT := answering (Return xpub))
    (VNum 1) (TrezorWallet.ProviderGenerator (Throw disconnected)) world0
  = (Throw disconnected, world0) /\
  TrezorWallet.open (PC := paths_unparsable) (DT := answering (Return xpub))
    (VNum 1) TrezorWallet.ProviderPrimitive world0
  = (Throw (JsError TypeError "Path is not valid"),
     mkWorld ["No provider set"] []).
Proof.
  split.
  - refine (proj1 (open_rejects_before_the_request (DT := answering (Return xpub))
                     (VNum 1) (TrezorWallet.ProviderGenerator (Throw disconnected))
                     world0 disconnected) _).
    reflexivity.
  - refine (proj2 (open_rejects_before_the_request
                     (PC := paths_unparsable) (DT := answering (Return xpub))
                     (VNum 1) TrezorWallet.ProviderPrimitive world0
                     (JsError TypeError "Path is not valid")) None _ _);
      reflexivity.
Defined.

Lemma sign_explicit_chainId_is_not_replaced_witness :
  get "chainId" (<["chainId" := VNull]> (transaction 3)) <> VUndefined /\
  safeIntegerValidator (get "chainId" (<["chainId" := VNull]> (transaction 3)))
    = Throw (JsError InputValidationError "Integer is not a safe integer") /\
  TrezorWallet.sign (DT := answering (Return signature_rsv)) (wallet_on_chain 4)
    (<["chainId" := VNull]> (transaction 3)) world0
  = (Throw (JsError InputValidationError "Integer is not a safe integer"), world0).
Proof.
  assert (He : get "chainId" (<["chainId" := VNull]> (transaction 3)) <> VUndefined)
    by discriminate.
  assert (Hc : safeIntegerValidator
                 (get "chainId" (<["chainId" := VNull]> (transaction 3)))
               = Throw (JsError InputValidationError "Integer is not a safe integer"))
    by reflexivity.
  assert (Hp : derivationPath_accepts
                 (VStr (TrezorWallet.path (wallet_on_chain 4))) = true)
    by reflexivity.
  assert (Hn : safeIntegerValidator
                 (with_default (VNum 0)
                    (get "nonce" (<["chainId" := VNull]> (transaction 3))))
               = Return 3) by reflexivity.
  split; [exact He|]. split; [exact Hc|].
  exact (proj2 (sign_explicit_chainId_is_not_replaced
                  (DT := answering (Return signature_rsv)) (wallet_on_chain 4)
                  (<["chainId" := VNull]> (transaction 3)) 3 world0 _ He Hc Hp Hn)).
Defined.

Lemma mocked_serializer_fixes_the_path_witness :
  derivationPathSerializer (PathCodec := paths_mocked)
    = mocked_derivationPathSerializer /\
  TrezorWallet.constructor (PC := paths_mocked)
    (VStr "pk") (VStr "cc") 60 (VNum 2) None = Return wallet2_mocked /\
  TrezorWallet.address (snd (TrezorWallet.setDefaultAddress (VNum 1) wallet2_mocked))
    = "0xpk@m/1" /\
  TrezorWallet.path (snd (TrezorWallet.setDefaultAddress (VNum 1) wallet2_mocked))
    = "mocked-derivation-path".
Proof.
  assert (Hm : derivationPathSerializer (PathCodec := paths_mocked)
               = mocked_derivationPathSerializer) by reflexivity.
  assert (Hw : TrezorWallet.constructor (PC := paths_mocked)
                 (VStr "pk") (VStr "cc") 60 (VNum 2) None = Return wallet2_mocked)
    by reflexivity.
  split; [exact Hm|]. split; [exact Hw|]. split; [reflexivity|].
  exact (proj2 (proj2 (mocked_serializer_fixes_the_path (PC := paths_mocked)
                         (VStr "pk") (VStr "cc") 60 (VNum 2) None wallet2_mocked
                         (VNum 1) Hm Hw))).
Defined.

(** An address that ethers refuses, and a path that does not convert: the
    calls throw and the device hears nothing. *)
Lemma at_most_one_request_per_call_witness :
  validateAddress (get "address" (<["address" := VNum 5]> signed_message))
    = Throw (JsError TypeError "invalid address") /\
  TrezorWallet.verifyMessage (DT := answering (Return signature_rsv))
    (<["address" := VNum 5]> signed_message) world0
  = (Throw (JsError TypeError "invalid address"), world0) /\
  TrezorWallet.signMessage (PC := paths_unparsable)
    (DT := answering (Return signature_rsv)) (transaction 3) world0
  = (Throw (JsError TypeError "Path is not valid"), world0) /\
  exists payload,
    requests (snd (TrezorWallet.verifyMessage (DT := answering (Return signature_rsv))
                     signed_message world0)) = [payload].
Proof.
  assert (Hv : validateAddress (get "address" (<["address" := VNum 5]> signed_message))
               = Throw (JsError TypeError "invalid address")) by reflexivity.
  assert (Hok : validateAddress (get "address" signed_message) = Return "0xabc")
    by reflexivity.
  assert (Hp : derivationPath_accepts (PathCodec := paths_unparsable)
                 (get "path" (transaction 3)) = true) by reflexivity.
  assert (Ha : toPathArray (PathCodec := paths_unparsable)
                 (derivationPathNormalizer (PathCodec := paths_unparsable)
                    (get "path" (transaction 3)))
               = Throw (JsError TypeError "Path is not valid")) by reflexivity.
  split; [exact Hv|]. split; [|split].
  - exact (proj1 (proj1 (proj2 (at_most_one_request_per_call
                                  (DT := answering (Return signature_rsv))
                                  (<["address" := VNum 5]> signed_message) world0)))
             _ Hv).
  - exact (proj1 (proj2 (proj2 (proj1 (proj2 (at_most_one_request_per_call
                                  (PC := paths_unparsable)
                                  (DT := answering (Return signature_rsv))
                                  (transaction 3) world0)))))
             _ Hp Ha).
  - exact (proj1 (proj2 (proj2 (at_most_one_request_per_call
                                  (DT := answering (Return signature_rsv))
                                  signed_message world0)))
             "0xabc" Hok).
Defined.
